(** * mcp_server.py: the Snowflake CSV upload tool

    A shallow embedding of [src/mcp_server.py]: the start-up configuration
    gate (module top level), the tool [upload_csv_to_snowflake] and the
    [__main__] block, followed by the properties the specification states
    about them.

    The program is glue around external libraries (dotenv, pandas, the
    Snowflake connector, FastMCP).  Those are not part of the repository;
    they appear here as an interface of oracles over an abstract state of
    the outside world, so every theorem holds for every behaviour of the
    libraries.  Python's own semantics (exceptions and [except] clauses,
    truthiness, f-strings, dict literals, [str.upper]) is written out. *)

From Stdlib Require Import String Ascii DecimalString.
From Stdlib Require Import List ZArith NArith Bool Lia.
Import ListNotations.

Set Implicit Arguments.

(* ------------------------------------------------------------------ *)
(** ** Python values *)

(** A Python [str] is a sequence of Unicode code points. *)
Definition str : Type := list N.

(** An ASCII literal of the source text. *)
Definition lit (s : string) : str := map N_of_ascii (list_ascii_of_string s).

Definition str_eq_dec : forall a b : str, {a = b} + {a <> b} :=
  list_eq_dec N.eq_dec.

Definition str_eqb (a b : str) : bool := if str_eq_dec a b then true else false.

(** [str(n)] for an [int]. *)
Definition str_of_Z (z : Z) : str := lit (NilZero.string_of_int (Z.to_int z)).

(** The values that travel through the tool: result-dict entries, fetched
    rows and data-frame cells.  [VOther] is any other object, carried by the
    text [str()] gives for it. *)
Inductive pyval : Type :=
| VNone
| VBool (b : bool)
| VInt (z : Z)
| VStr (s : str)
| VOther (text : str).

(** [str(v)], which is what an f-string field [{v}] inserts. *)
Definition py_str (v : pyval) : str :=
  match v with
  | VNone => lit "None"
  | VBool true => lit "True"
  | VBool false => lit "False"
  | VInt z => str_of_Z z
  | VStr s => s
  | VOther text => text
  end.

(** [os.getenv] returns [Optional[str]]; an f-string field shows [None]. *)
Definition fmt_opt (o : option str) : str :=
  match o with
  | Some s => s
  | None => lit "None"
  end.

(** [not x] for an [Optional[str]]: [None] and the empty string are falsy. *)
Definition py_not (o : option str) : bool :=
  match o with
  | None => true
  | Some [] => true
  | Some (_ :: _) => false
  end.

(** A [dict] with [str] keys, in insertion order. *)
Definition dict (V : Type) : Type := list (str * V).

Fixpoint dict_get {V} (k : str) (d : dict V) : option V :=
  match d with
  | [] => None
  | (k', v) :: d' => if str_eqb k k' then Some v else dict_get k d'
  end.

(** [d[k] = v]: replaces the value of an existing key, else appends. *)
Fixpoint dict_set {V} (k : str) (v : V) (d : dict V) : dict V :=
  match d with
  | [] => [(k, v)]
  | (k', v') :: d' =>
      if str_eqb k k' then (k', v) :: d' else (k', v') :: dict_set k v d'
  end.

(* ------------------------------------------------------------------ *)
(** ** Exceptions *)

(** Python's exception hierarchy, as far as an [except] clause of the
    program can tell its members apart: instances of [Exception] (carried
    by [str(e)]), and the two [BaseException]s that are not. *)
Inductive exn : Type :=
| Exc (descr : str)
| KeyboardInterrupt
| SystemExit (code : Z).

Definition isinstance_Exception (e : exn) : bool :=
  match e with
  | Exc _ => true
  | _ => false
  end.

Definition isinstance_KeyboardInterrupt (e : exn) : bool :=
  match e with
  | KeyboardInterrupt => true
  | _ => false
  end.

(** [str(e)], the text of [{e}] in an f-string. *)
Definition exn_str (e : exn) : str :=
  match e with
  | Exc descr => descr
  | KeyboardInterrupt => []
  | SystemExit code => str_of_Z code
  end.

Inductive outcome (A : Type) : Type :=
| Val (a : A)
| Raise (e : exn).
Arguments Val {A} a.
Arguments Raise {A} e.

(* ------------------------------------------------------------------ *)
(** ** Data of the external libraries *)

(** A pandas [DataFrame]: column labels and rows of cells, by position. *)
Record DataFrame : Type := mkDataFrame {
  df_columns : list str;
  df_rows : list (list pyval)
}.

(** [len(df)] *)
Definition df_len (df : DataFrame) : Z := Z.of_nat (length (df_rows df)).

(** Connection and cursor objects, by identity. *)
Definition conn : Type := N.
Definition cursor : Type := N.

(** What [write_pandas] returns: (success, nchunks, nrows, output). *)
Definition WriteResult : Type := (bool * Z * Z * list pyval)%type.

(** What can be observed of a run: the lines printed to stderr and the
    calls made to the external libraries, each with its arguments and what
    it returned or raised. *)
Inductive event : Type :=
| EPrint (line : str)
| ELoadDotenv (r : outcome bool)
| EFastMCP (name : str) (r : outcome unit)
| ETool (name : str) (r : outcome unit)
| ERun (r : outcome unit)
| EReadCsv (path : option str) (r : outcome DataFrame)
| EConnect (kwargs : dict (option str)) (r : outcome conn)
| EWritePandas (c : conn) (df : DataFrame) (table : option str)
               (r : outcome WriteResult)
| ECursor (c : conn) (r : outcome cursor)
| EExecute (cur : cursor) (sql : str) (r : outcome unit)
| EFetchone (cur : cursor) (r : outcome (option (list pyval)))
| ECursorClose (cur : cursor) (r : outcome unit)
| EConnClose (c : conn) (r : outcome unit).

(** The outside world: process environment, file system, the warehouse, the
    MCP framework, and the interpreter's Unicode tables. *)
Class Collaborators (St : Type) : Type := {
  (** full upper-case mapping of a code point outside ASCII *)
  unicode_toupper_full : N -> str;
  load_dotenv : St -> outcome bool * St;
  os_getenv : str -> St -> option str;
  os_path_exists : str -> St -> bool;
  FastMCP : str -> St -> outcome unit * St;
  mcp_tool : str -> St -> outcome unit * St;
  mcp_run : St -> outcome unit * St;
  pd_read_csv : option str -> St -> outcome DataFrame * St;
  sf_connect : dict (option str) -> St -> outcome conn * St;
  write_pandas : conn -> DataFrame -> option str -> St ->
                 outcome WriteResult * St;
  conn_cursor : conn -> St -> outcome cursor * St;
  cur_execute : cursor -> str -> St -> outcome unit * St;
  cur_fetchone : cursor -> St -> outcome (option (list pyval)) * St;
  cur_close : cursor -> St -> outcome unit * St;
  conn_close : conn -> St -> outcome unit * St
}.

(* ------------------------------------------------------------------ *)
(** ** The monad of the program: state of the world, exceptions, trace *)

Section Program.

Context {St : Type} {C : Collaborators St}.

Definition M (A : Type) : Type := St -> outcome A * St * list event.

Definition ret {A} (a : A) : M A := fun s => (Val a, s, []).

Definition raise {A} (e : exn) : M A := fun s => (Raise e, s, []).

Definition bind {A B} (m : M A) (f : A -> M B) : M B := fun s =>
  match m s with
  | (Val a, s1, t1) =>
      match f a s1 with
      | (o, s2, t2) => (o, s2, t1 ++ t2)
      end
  | (Raise e, s1, t1) => (Raise e, s1, t1)
  end.

(** One [except C as e: handler] clause: the class test and the handler. *)
Definition clause (A : Type) : Type := ((exn -> bool) * (exn -> M A))%type.

(** The first clause whose class matches handles the exception. *)
Fixpoint select_handler {A} (e : exn) (cs : list (clause A)) : option (M A) :=
  match cs with
  | [] => None
  | (test, handler) :: cs' =>
      if test e then Some (handler e) else select_handler e cs'
  end.

(** [try: body  except ...], without [finally]: an exception no clause
    matches propagates. *)
Definition try_except {A} (body : M A) (cs : list (clause A)) : M A := fun s =>
  match body s with
  | (Val a, s1, t1) => (Val a, s1, t1)
  | (Raise e, s1, t1) =>
      match select_handler e cs with
      | Some handler =>
          match handler s1 with
          | (o, s2, t2) => (o, s2, t1 ++ t2)
          end
      | None => (Raise e, s1, t1)
      end
  end.

(** A call of an external library function, recorded with its outcome. *)
Definition extern {X} (f : St -> outcome X * St) (ev : outcome X -> event)
  : M X := fun s =>
  match f s with
  | (o, s1) => (o, s1, [ev o])
  end.

(** [print(line, file=sys.stderr)] on a diagnostic channel that works: the
    line is written and nothing is raised.  [print_to], further down, is
    the print of a channel that can fail. *)
Definition print (line : str) : M unit := fun s => (Val tt, s, [EPrint line]).

(** [sys.exit(code)] raises [SystemExit]. *)
Definition sys_exit {A} (code : Z) : M A := raise (SystemExit code).

(** [os.getenv(key)] reads the environment and leaves it as it is. *)
Definition getenv (key : str) : M (option str) := fun s =>
  (Val (os_getenv key s), s, []).

End Program.

Arguments M St A : clear implicits.

Declare Scope py_scope.
Delimit Scope py_scope with py.
Notation "x <- c1 ;; c2" := (bind c1 (fun x => c2))
  (at level 61, c1 at next level, right associativity) : py_scope.
Notation "c1 ;; c2" := (bind c1 (fun _ => c2))
  (at level 61, right associativity) : py_scope.
Infix "+++" := (@app N) (at level 60, right associativity) : py_scope.
Open Scope py_scope.

(* ------------------------------------------------------------------ *)
(** ** The program *)

Section Server.

Context {St : Type} {C : Collaborators St}.

Local Abbreviation Py := (M St).

(** [s.upper()]: every code point is replaced by its full upper-case
    mapping; within ASCII that is a-z to A-Z, outside ASCII the Unicode
    tables decide. *)
Definition ascii_lower (c : N) : bool := ((97 <=? c) && (c <=? 122))%N.

Definition toupper_full (c : N) : str :=
  if ascii_lower c then [(c - 32)%N]
  else if (c <? 128)%N then [c]
  else unicode_toupper_full c.

Definition str_upper (s : str) : str := flat_map toupper_full s.

(** [df.columns = labels]: pandas replaces the labels and nothing else, and
    raises [ValueError] when their number differs from the number of
    columns. *)
Definition set_columns (df : DataFrame) (labels : list str) : Py DataFrame :=
  if Nat.eqb (length labels) (length (df_columns df))
  then ret (mkDataFrame labels (df_rows df))
  else raise (Exc (lit "Length mismatch: Expected axis has "
                   +++ str_of_Z (Z.of_nat (length (df_columns df)))
                   +++ lit " elements, new values have "
                   +++ str_of_Z (Z.of_nat (length labels))
                   +++ lit " elements")).

(** [d[key]] raises [KeyError] for an absent key. *)
Definition dict_getitem {V} (d : dict V) (key : str) : Py V :=
  match dict_get key d with
  | Some v => ret v
  | None => raise (Exc (lit "'" +++ key +++ lit "'"))
  end.

(** [row[0]] on what [fetchone()] returned: [None] is not subscriptable, an
    empty tuple has no index 0. *)
Definition subscript0 (row : option (list pyval)) : Py pyval :=
  match row with
  | None => raise (Exc (lit "'NoneType' object is not subscriptable"))
  | Some [] => raise (Exc (lit "tuple index out of range"))
  | Some (v :: _) => ret v
  end.

(** [for x in l: body] *)
Fixpoint for_each {A} (l : list A) (body : A -> Py unit) : Py unit :=
  match l with
  | [] => ret tt
  | x :: l' => body x ;; for_each l' body
  end.

(** [{key: f(key) for key in keys}], continuing from [acc]. *)
Fixpoint dict_comprehension {V} (acc : dict V) (keys : list str)
    (f : str -> Py V) : Py (dict V) :=
  match keys with
  | [] => ret acc
  | key :: keys' =>
      v <- f key ;;
      dict_comprehension (dict_set key v acc) keys' f
  end.

(** [os.path.exists(path)]; [os.stat(None)] raises [TypeError]. *)
Definition path_exists (path : option str) : Py bool :=
  match path with
  | Some p => fun s => (Val (os_path_exists p s), s, [])
  | None =>
      raise (Exc (lit "stat: path should be string, bytes, os.PathLike or integer, not NoneType"))
  end.

Definition REQUIRED_ENV : list str :=
  [ lit "CSV_PATH"; lit "SNOWFLAKE_USER"; lit "SNOWFLAKE_PASSWORD";
    lit "SNOWFLAKE_ACCOUNT"; lit "SNOWFLAKE_WAREHOUSE";
    lit "SNOWFLAKE_DATABASE"; lit "SNOWFLAKE_SCHEMA"; lit "SNOWFLAKE_TABLE" ].

(** The query of the verification step. *)
Definition count_query (table : option str) : str :=
  lit "SELECT COUNT(*) FROM " +++ fmt_opt table.

(** Module top level, lines 10-40: load the environment, validate it, check
    the CSV file, create the MCP server and register the tool. *)
Definition startup : Py unit :=
  extern load_dotenv ELoadDotenv ;;
  print (lit "[INFO] Loading environment variables...") ;;
  for_each REQUIRED_ENV (fun var =>
    v <- getenv var ;;
    if py_not v then
      print (lit "[ERROR] Missing environment variable: " +++ var) ;;
      sys_exit 1
    else ret tt) ;;
  csv_path <- getenv (lit "CSV_PATH") ;;
  found <- path_exists csv_path ;;
  (if negb found then
     print (lit "[ERROR] CSV file not found: " +++ fmt_opt csv_path) ;;
     sys_exit 1
   else ret tt) ;;
  print (lit "[INFO] CSV file found: " +++ fmt_opt csv_path) ;;
  try_except
    (extern (FastMCP (lit "snowflake-tools")) (EFastMCP (lit "snowflake-tools")) ;;
     print (lit "[INFO] MCP server initialized"))
    [ (isinstance_Exception, fun e =>
         print (lit "[ERROR] Failed to initialize MCP server: " +++ exn_str e) ;;
         sys_exit 1) ] ;;
  extern (mcp_tool (lit "upload_csv_to_snowflake"))
         (ETool (lit "upload_csv_to_snowflake")).

(** The tool, lines 41-86.  A [return] inside one of the first two [try]
    statements leaves the function: the statement yields [inl result] for
    it, and [inr] of the value it binds when control goes on. *)
Definition upload_csv_to_snowflake : Py (dict pyval) :=
  print (lit "[INFO] Running upload_csv_to_snowflake tool...") ;;
  csv_path <- getenv (lit "CSV_PATH") ;;
  sf_config <- dict_comprehension [] (tl REQUIRED_ENV) getenv ;;
  r <- try_except
         (df <- extern (pd_read_csv csv_path) (EReadCsv csv_path) ;;
          print (lit "[INFO] Loaded CSV: " +++ str_of_Z (df_len df)
                 +++ lit " rows, "
                 +++ str_of_Z (Z.of_nat (length (df_columns df)))
                 +++ lit " columns") ;;
          df <- set_columns df (map str_upper (df_columns df)) ;;
          ret (inr df))
         [ (isinstance_Exception, fun e =>
              print (lit "[ERROR] Failed to read CSV: " +++ exn_str e) ;;
              ret (inl [ (lit "status", VStr (lit "error"));
                         (lit "message",
                          VStr (lit "Error reading CSV: " +++ exn_str e)) ])) ] ;;
  match r with
  | inl result => ret result
  | inr df =>
  r <- try_except
         (conn <- extern (sf_connect sf_config) (EConnect sf_config) ;;
          print (lit "[INFO] Connected to Snowflake") ;;
          ret (inr conn))
         [ (isinstance_Exception, fun e =>
              print (lit "[ERROR] Snowflake connection failed: " +++ exn_str e) ;;
              ret (inl [ (lit "status", VStr (lit "error"));
                         (lit "message",
                          VStr (lit "Connection failed: " +++ exn_str e)) ])) ] ;;
  match r with
  | inl result => ret result
  | inr conn =>
  try_except
    (table <- dict_getitem sf_config (lit "SNOWFLAKE_TABLE") ;;
     w <- extern (write_pandas conn df table) (EWritePandas conn df table) ;;
     let '(success, _, nrows, _) := w in
     if negb success then
       print (lit "[ERROR] Failed to upload data to Snowflake") ;;
       ret [ (lit "status", VStr (lit "error"));
             (lit "message", VStr (lit "Upload to Snowflake failed")) ]
     else
       cur <- extern (conn_cursor conn) (ECursor conn) ;;
       table <- dict_getitem sf_config (lit "SNOWFLAKE_TABLE") ;;
       extern (cur_execute cur (count_query table))
              (EExecute cur (count_query table)) ;;
       row <- extern (cur_fetchone cur) (EFetchone cur) ;;
       row_count <- subscript0 row ;;
       extern (cur_close cur) (ECursorClose cur) ;;
       extern (conn_close conn) (EConnClose conn) ;;
       print (lit "[INFO] Uploaded " +++ str_of_Z nrows
              +++ lit " rows, total rows: " +++ py_str row_count) ;;
       ret [ (lit "status", VStr (lit "success"));
             (lit "rows_uploaded", VInt nrows);
             (lit "total_rows_in_table", row_count) ])
    [ (isinstance_Exception, fun e =>
         print (lit "[ERROR] Upload error: " +++ exn_str e) ;;
         ret [ (lit "status", VStr (lit "error"));
               (lit "message", VStr (lit "Upload error: " +++ exn_str e)) ]) ]
  end
  end.

(** The [__main__] block, lines 88-97. *)
Definition main_block : Py unit :=
  print (lit "[INFO] Starting MCP server...") ;;
  try_except
    (extern mcp_run ERun ;;
     print (lit "[INFO] MCP server running"))
    [ (isinstance_KeyboardInterrupt, fun _ =>
         print (lit "[INFO] Server stopped by user"));
      (isinstance_Exception, fun e =>
         print (lit "[ERROR] Server failed: " +++ exn_str e) ;;
         sys_exit 1) ].

(** The file run as a script. *)
Definition script : Py unit := startup ;; main_block.

(** The exit status of the process, for the codes this script exits with:
    0 when the script runs to its end, the code of an uncaught [SystemExit]
    (the script passes 1; a code outside 0..255, which the system would
    reduce modulo 256, is not modelled), 1 for an uncaught [Exception]
    (after the traceback), 130 for an uncaught [KeyboardInterrupt]
    (POSIX). *)
Definition exit_status (o : outcome unit) : Z :=
  match o with
  | Val _ => 0
  | Raise (SystemExit code) => code
  | Raise (Exc _) => 1
  | Raise KeyboardInterrupt => 130
  end.

End Server.

(* ------------------------------------------------------------------ *)
(** ** Vocabulary of the properties *)

Section Vocabulary.

Context {St : Type} {C : Collaborators St}.

(** The [sf_config] dict of an invocation that starts in state [s]. *)
Definition sf_config_of (s : St) : dict (option str) :=
  map (fun key => (key, os_getenv key s)) (tl REQUIRED_ENV).

(** The table name of an invocation that starts in state [s]. *)
Definition table_of (s : St) : option str := os_getenv (lit "SNOWFLAKE_TABLE") s.

(** The data frame after line 56. *)
Definition normalized (df : DataFrame) : DataFrame :=
  mkDataFrame (map str_upper (df_columns df)) (df_rows df).

(** A variable the validation loop takes for missing in state [s]. *)
Definition missing (s : St) (var : str) : bool := py_not (os_getenv var s).

(** The error result with message [msg]. *)
Definition error_result (msg : str) : dict pyval :=
  [ (lit "status", VStr (lit "error")); (lit "message", VStr msg) ].

Definition success_result (nrows : Z) (row_count : pyval) : dict pyval :=
  [ (lit "status", VStr (lit "success"));
    (lit "rows_uploaded", VInt nrows);
    (lit "total_rows_in_table", row_count) ].

(** The events by stage. *)
Definition is_bulk_load (ev : event) : bool :=
  match ev with
  | EWritePandas _ _ _ _ => true
  | _ => false
  end.

Definition is_verification (ev : event) : bool :=
  match ev with
  | ECursor _ _ | EExecute _ _ _ | EFetchone _ _ => true
  | _ => false
  end.

Definition is_serving (ev : event) : bool :=
  match ev with
  | EFastMCP _ _ | ETool _ _ | ERun _ => true
  | _ => false
  end.

(** The exception an event of the connect, upload and verify stage
    raised, if it is one and raised. *)
Definition remote_raised (ev : event) : option exn :=
  match ev with
  | EConnect _ (Raise e) => Some e
  | EWritePandas _ _ _ (Raise e) => Some e
  | ECursor _ (Raise e) => Some e
  | EExecute _ _ (Raise e) => Some e
  | EFetchone _ (Raise e) => Some e
  | ECursorClose _ (Raise e) => Some e
  | EConnClose _ (Raise e) => Some e
  | _ => None
  end.

(** The text the tool puts before the description of an exception of
    that stage. *)
Definition stage_prefix (ev : event) : str :=
  match ev with
  | EConnect _ _ => lit "Connection failed: "
  | _ => lit "Upload error: "
  end.

(** What the program assumes of a warehouse that nobody else writes to,
    for a function [row_count] giving the number of rows a table holds in
    a state of the world: a successful bulk load adds the rows it reports
    and reports the rows of the data frame, opening a cursor changes no
    table, and fetching after the counting query yields the count. *)
Record warehouse_contract (row_count : option str -> St -> Z) : Prop := {
  load_appends : forall c df table s success nchunks nrows output s',
    write_pandas c df table s = (Val (success, nchunks, nrows, output), s') ->
    success = true ->
    row_count table s' = (row_count table s + nrows)%Z;
  load_reports : forall c df table s success nchunks nrows output s',
    write_pandas c df table s = (Val (success, nchunks, nrows, output), s') ->
    success = true ->
    nrows = df_len df;
  cursor_keeps : forall c s cur s' table,
    conn_cursor c s = (Val cur, s') ->
    row_count table s' = row_count table s;
  count_fetched : forall cur table s s1 row s2,
    cur_execute cur (count_query table) s = (Val tt, s1) ->
    cur_fetchone cur s1 = (Val row, s2) ->
    row = Some [VInt (row_count table s)]
}.

End Vocabulary.

(* ------------------------------------------------------------------ *)
(** ** A scripted outside world, to run the program on *)

Module Fake.

(** The world holds the environment, the existing paths, what each
    library call is scripted to do, and the rows of the target table. *)
Record world : Type := mkWorld {
  env : dict str;
  files : list str;
  csv : outcome DataFrame;
  connecting : outcome conn;
  loading : outcome bool;
  querying : outcome unit;
  rows : Z;
  fetched : option (list pyval)
}.

(** A stand-in for the Unicode tables: the upper-case mapping up to U+00FF,
    and the identity beyond. *)
Definition latin1_toupper (c : N) : str :=
  if (c =? 223)%N then [83%N; 83%N]
  else if (c =? 181)%N then [924%N]
  else if (c =? 255)%N then [376%N]
  else if ((224 <=? c) && (c <=? 254) && negb (c =? 247))%N then [(c - 32)%N]
  else [c].

Definition do_write_pandas (c : conn) (df : DataFrame) (table : option str)
    (w : world) : outcome WriteResult * world :=
  match loading w with
  | Raise e => (Raise e, w)
  | Val false => (Val (false, 0%Z, 0%Z, []), w)
  | Val true =>
      (Val (true, 1%Z, df_len df, []),
       mkWorld (env w) (files w) (csv w) (connecting w) (loading w)
               (querying w) (rows w + df_len df) (fetched w))
  end.

Definition do_execute (cur : cursor) (sql : str) (w : world)
    : outcome unit * world :=
  match querying w with
  | Raise e => (Raise e, w)
  | Val _ =>
      (Val tt,
       mkWorld (env w) (files w) (csv w) (connecting w) (loading w)
               (querying w) (rows w) (Some [VInt (rows w)]))
  end.

#[global] Instance collaborators : Collaborators world := {
  unicode_toupper_full := latin1_toupper;
  load_dotenv := fun w => (Val true, w);
  os_getenv := fun key w => dict_get key (env w);
  os_path_exists := fun p w => existsb (str_eqb p) (files w);
  FastMCP := fun _ w => (Val tt, w);
  mcp_tool := fun _ w => (Val tt, w);
  mcp_run := fun w => (Val tt, w);
  pd_read_csv := fun _ w => (csv w, w);
  sf_connect := fun _ w => (connecting w, w);
  write_pandas := do_write_pandas;
  conn_cursor := fun c w => (Val (c + 1)%N, w);
  cur_execute := do_execute;
  cur_fetchone := fun _ w => (Val (fetched w), w);
  cur_close := fun _ w => (Val tt, w);
  conn_close := fun _ w => (Val tt, w)
}.

(** The number of rows of the one table. *)
Definition row_count (table : option str) (w : world) : Z := rows w.

Definition full_env : dict str :=
  [ (lit "CSV_PATH", lit "data.csv"); (lit "SNOWFLAKE_USER", lit "u");
    (lit "SNOWFLAKE_PASSWORD", lit "p"); (lit "SNOWFLAKE_ACCOUNT", lit "a");
    (lit "SNOWFLAKE_WAREHOUSE", lit "w"); (lit "SNOWFLAKE_DATABASE", lit "d");
    (lit "SNOWFLAKE_SCHEMA", lit "s"); (lit "SNOWFLAKE_TABLE", lit "T") ].

(** The file of the specification's example: columns id,Name,Value and two
    rows. *)
Definition sample : DataFrame :=
  mkDataFrame [lit "id"; lit "Name"; lit "Value"]
              [ [VInt 1; VStr (lit "a"); VInt 10];
                [VInt 2; VStr (lit "b"); VInt 20] ].

Definition empty_file : DataFrame :=
  mkDataFrame [lit "id"; lit "Name"; lit "Value"] [].

(** Everything works; the table holds 5 rows. *)
Definition healthy : world :=
  mkWorld full_env [lit "data.csv"] (Val sample) (Val 3%N) (Val true)
          (Val tt) 5 None.

Definition with_csv (r : outcome DataFrame) (w : world) : world :=
  mkWorld (env w) (files w) r (connecting w) (loading w) (querying w)
          (rows w) (fetched w).

Definition with_connecting (r : outcome conn) (w : world) : world :=
  mkWorld (env w) (files w) (csv w) r (loading w) (querying w)
          (rows w) (fetched w).

Definition with_loading (r : outcome bool) (w : world) : world :=
  mkWorld (env w) (files w) (csv w) (connecting w) r (querying w)
          (rows w) (fetched w).

Definition with_querying (r : outcome unit) (w : world) : world :=
  mkWorld (env w) (files w) (csv w) (connecting w) (loading w) r
          (rows w) (fetched w).

Definition with_env (e : dict str) (w : world) : world :=
  mkWorld e (files w) (csv w) (connecting w) (loading w) (querying w)
          (rows w) (fetched w).

Definition with_files (l : list str) (w : world) : world :=
  mkWorld (env w) l (csv w) (connecting w) (loading w) (querying w)
          (rows w) (fetched w).

End Fake.

(** The runs the properties are exercised on. *)
Module Scenario.

Import Fake.

Definition read_fails : world :=
  with_csv (Raise (Exc (lit "No such file or directory"))) healthy.

Definition connect_fails : world :=
  with_connecting (Raise (Exc (lit "Incorrect username or password"))) healthy.

(** Ctrl-C while the connection is being made. *)
Definition interrupted : world :=
  with_connecting (Raise KeyboardInterrupt) healthy.

Definition load_rejected : world := with_loading (Val false) healthy.

(** The load works, the verification query times out. *)
Definition query_fails : world :=
  with_querying (Raise (Exc (lit "timeout"))) healthy.

Definition empty : world := with_csv (Val empty_file) healthy.

Definition no_file : world := with_files [] healthy.

Definition no_table : world := with_env (removelast full_env) healthy.

(** The sample file after line 56. *)
Definition sample_upper : DataFrame :=
  mkDataFrame [lit "ID"; lit "NAME"; lit "VALUE"] (df_rows sample).

Definition table : option str := Some (lit "T").

(** The bulk load of the healthy run. *)
Definition load_event : event :=
  EWritePandas 3%N sample_upper table (Val (true, 1%Z, 2%Z, [])).

(** The world after the bulk load of the sample, and after the query. *)
Definition loaded (w : world) : world :=
  mkWorld (env w) (files w) (csv w) (connecting w) (loading w) (querying w)
          (rows w + 2) (fetched w).

Definition queried (w : world) : world :=
  mkWorld (env w) (files w) (csv w) (connecting w) (loading w) (querying w)
          (rows w) (Some [VInt (rows w)]).

End Scenario.

(* ------------------------------------------------------------------ *)
(** ** Further vocabulary: calls, counts and the tables' frame *)

Section Observations.

Context {St : Type} {C : Collaborators St}.

(** The exception a library call raised, whatever the call. *)
Definition raised (ev : event) : option exn :=
  match ev with
  | EPrint _ => None
  | ELoadDotenv (Raise e) => Some e
  | EFastMCP _ (Raise e) => Some e
  | ETool _ (Raise e) => Some e
  | ERun (Raise e) => Some e
  | EReadCsv _ (Raise e) => Some e
  | EConnect _ (Raise e) => Some e
  | EWritePandas _ _ _ (Raise e) => Some e
  | ECursor _ (Raise e) => Some e
  | EExecute _ _ (Raise e) => Some e
  | EFetchone _ (Raise e) => Some e
  | ECursorClose _ (Raise e) => Some e
  | EConnClose _ (Raise e) => Some e
  | _ => None
  end.

Definition is_read (ev : event) : bool :=
  match ev with
  | EReadCsv _ _ => true
  | _ => false
  end.

Definition is_connect (ev : event) : bool :=
  match ev with
  | EConnect _ _ => true
  | _ => false
  end.

Definition is_execute (ev : event) : bool :=
  match ev with
  | EExecute _ _ _ => true
  | _ => false
  end.

(** A call of [cur.close()] or [conn.close()]. *)
Definition is_release (ev : event) : bool :=
  match ev with
  | ECursorClose _ _ | EConnClose _ _ => true
  | _ => false
  end.

(** How many events of a kind a trace holds. *)
Definition count (kind : event -> bool) (tr : list event) : nat :=
  length (filter kind tr).

(** The calls other than the bulk load are assumed not to change the number
    of rows of any table, whether they return or raise. *)
Record warehouse_frame (row_count : option str -> St -> Z) : Prop := {
  read_csv_frame : forall path s r s' table,
    pd_read_csv path s = (r, s') -> row_count table s' = row_count table s;
  connect_frame : forall kwargs s r s' table,
    sf_connect kwargs s = (r, s') -> row_count table s' = row_count table s;
  cursor_frame : forall c s r s' table,
    conn_cursor c s = (r, s') -> row_count table s' = row_count table s;
  execute_frame : forall cur sql s r s' table,
    cur_execute cur sql s = (r, s') -> row_count table s' = row_count table s;
  fetchone_frame : forall cur s r s' table,
    cur_fetchone cur s = (r, s') -> row_count table s' = row_count table s;
  cur_close_frame : forall cur s r s' table,
    cur_close cur s = (r, s') -> row_count table s' = row_count table s;
  conn_close_frame : forall c s r s' table,
    conn_close c s = (r, s') -> row_count table s' = row_count table s
}.

End Observations.

(** A second scripted world: the first one, with the MCP framework and the
    fetch of the count scripted as well. *)
Module Staged.

Record world : Type := mkWorld {
  base : Fake.world;
  creating : outcome unit;
  registering : outcome unit;
  running : outcome unit;
  (** what [fetchone()] returns instead of the pending result, if set *)
  fetching : option (option (list pyval))
}.

Definition with_base (b : Fake.world) (w : world) : world :=
  mkWorld b (creating w) (registering w) (running w) (fetching w).

(** A call of the first world, made on the base. *)
Definition lift {X} (f : Fake.world -> outcome X * Fake.world) (w : world)
    : outcome X * world :=
  match f (base w) with
  | (o, b) => (o, with_base b w)
  end.

Definition do_fetchone (cur : cursor) (w : world)
    : outcome (option (list pyval)) * world :=
  match fetching w with
  | Some row => (Val row, w)
  | None => lift (cur_fetchone cur) w
  end.

#[global] Instance collaborators : Collaborators world := {
  unicode_toupper_full := Fake.latin1_toupper;
  load_dotenv := lift load_dotenv;
  os_getenv := fun key w => os_getenv key (base w);
  os_path_exists := fun p w => os_path_exists p (base w);
  FastMCP := fun _ w => (creating w, w);
  mcp_tool := fun _ w => (registering w, w);
  mcp_run := fun w => (running w, w);
  pd_read_csv := fun p => lift (pd_read_csv p);
  sf_connect := fun k => lift (sf_connect k);
  write_pandas := fun c df t => lift (write_pandas c df t);
  conn_cursor := fun c => lift (conn_cursor c);
  cur_execute := fun cur q => lift (cur_execute cur q);
  cur_fetchone := do_fetchone;
  cur_close := fun cur => lift (cur_close cur);
  conn_close := fun c => lift (conn_close c)
}.

(** Everything works and the server runs until it returns. *)
Definition healthy : world :=
  mkWorld Fake.healthy (Val tt) (Val tt) (Val tt) None.

Definition with_creating (r : outcome unit) (w : world) : world :=
  mkWorld (base w) r (registering w) (running w) (fetching w).

Definition with_running (r : outcome unit) (w : world) : world :=
  mkWorld (base w) (creating w) (registering w) r (fetching w).

Definition with_fetching (row : option (list pyval)) (w : world) : world :=
  mkWorld (base w) (creating w) (registering w) (running w) (Some row).

End Staged.

(** Further runs. *)
Module Edge.

(** SNOWFLAKE_USER is set, to the empty string; SNOWFLAKE_SCHEMA is unset. *)
Definition blank_user : Fake.world :=
  Fake.with_env
    [ (lit "CSV_PATH", lit "data.csv"); (lit "SNOWFLAKE_USER", []);
      (lit "SNOWFLAKE_PASSWORD", lit "p"); (lit "SNOWFLAKE_ACCOUNT", lit "a");
      (lit "SNOWFLAKE_WAREHOUSE", lit "w"); (lit "SNOWFLAKE_DATABASE", lit "d");
      (lit "SNOWFLAKE_TABLE", lit "T") ]
    Fake.healthy.

(** The MCP server cannot be created. *)
Definition no_server : Staged.world :=
  Staged.with_creating (Raise (Exc (lit "port in use"))) Staged.healthy.

(** Ctrl-C while serving, and a fault of the server. *)
Definition stopped : Staged.world :=
  Staged.with_running (Raise KeyboardInterrupt) Staged.healthy.

Definition crashed : Staged.world :=
  Staged.with_running (Raise (Exc (lit "broken pipe"))) Staged.healthy.

(** The counting query yields no row. *)
Definition no_row : Staged.world := Staged.with_fetching None Staged.healthy.

(** A file whose header is upper case already. *)
Definition upper_file : Fake.world :=
  Fake.with_csv (Val Scenario.sample_upper) Fake.healthy.

(** A file with two columns that differ in case only. *)
Definition twins : DataFrame :=
  mkDataFrame [lit "id"; lit "ID"] [ [VInt 1; VInt 2] ].

Definition twin_file : Fake.world := Fake.with_csv (Val twins) Fake.healthy.

(** The first world after one healthy invocation. *)
Definition after_one : Fake.world :=
  Scenario.queried (Scenario.loaded Fake.healthy).

End Edge.

(* ------------------------------------------------------------------ *)
(** ** The tool when the diagnostic channel can fail *)

Section Diagnostics.

Context {St : Type} {C : Collaborators St}.

Local Abbreviation Py := (M St).

(** [print(line, file=sys.stderr)] as a call like the others: the write to
    stderr changes the world and may raise ([OSError] on a closed or broken
    stream, or an interrupt).  The attempt is recorded, raised or not. *)
Definition print_to (stderr_write : str -> St -> outcome unit * St)
    (line : str) : Py unit := fun s =>
  match stderr_write line s with
  | (o, s1) => (o, s1, [EPrint line])
  end.

(** The tool, lines 41-86, over the operation that prints: the text of
    [upload_csv_to_snowflake], with [print] bound by the definition. *)
Definition upload_csv_to_snowflake_via (print : str -> Py unit)
    : Py (dict pyval) :=
  print (lit "[INFO] Running upload_csv_to_snowflake tool...") ;;
  csv_path <- getenv (lit "CSV_PATH") ;;
  sf_config <- dict_comprehension [] (tl REQUIRED_ENV) getenv ;;
  r <- try_except
         (df <- extern (pd_read_csv csv_path) (EReadCsv csv_path) ;;
          print (lit "[INFO] Loaded CSV: " +++ str_of_Z (df_len df)
                 +++ lit " rows, "
                 +++ str_of_Z (Z.of_nat (length (df_columns df)))
                 +++ lit " columns") ;;
          df <- set_columns df (map str_upper (df_columns df)) ;;
          ret (inr df))
         [ (isinstance_Exception, fun e =>
              print (lit "[ERROR] Failed to read CSV: " +++ exn_str e) ;;
              ret (inl [ (lit "status", VStr (lit "error"));
                         (lit "message",
                          VStr (lit "Error reading CSV: " +++ exn_str e)) ])) ] ;;
  match r with
  | inl result => ret result
  | inr df =>
  r <- try_except
         (conn <- extern (sf_connect sf_config) (EConnect sf_config) ;;
          print (lit "[INFO] Connected to Snowflake") ;;
          ret (inr conn))
         [ (isinstance_Exception, fun e =>
              print (lit "[ERROR] Snowflake connection failed: " +++ exn_str e) ;;
              ret (inl [ (lit "status", VStr (lit "error"));
                         (lit "message",
                          VStr (lit "Connection failed: " +++ exn_str e)) ])) ] ;;
  match r with
  | inl result => ret result
  | inr conn =>
  try_except
    (table <- dict_getitem sf_config (lit "SNOWFLAKE_TABLE") ;;
     w <- extern (write_pandas conn df table) (EWritePandas conn df table) ;;
     let '(success, _, nrows, _) := w in
     if negb success then
       print (lit "[ERROR] Failed to upload data to Snowflake") ;;
       ret [ (lit "status", VStr (lit "error"));
             (lit "message", VStr (lit "Upload to Snowflake failed")) ]
     else
       cur <- extern (conn_cursor conn) (ECursor conn) ;;
       table <- dict_getitem sf_config (lit "SNOWFLAKE_TABLE") ;;
       extern (cur_execute cur (count_query table))
              (EExecute cur (count_query table)) ;;
       row <- extern (cur_fetchone cur) (EFetchone cur) ;;
       row_count <- subscript0 row ;;
       extern (cur_close cur) (ECursorClose cur) ;;
       extern (conn_close conn) (EConnClose conn) ;;
       print (lit "[INFO] Uploaded " +++ str_of_Z nrows
              +++ lit " rows, total rows: " +++ py_str row_count) ;;
       ret [ (lit "status", VStr (lit "success"));
             (lit "rows_uploaded", VInt nrows);
             (lit "total_rows_in_table", row_count) ])
    [ (isinstance_Exception, fun e =>
         print (lit "[ERROR] Upload error: " +++ exn_str e) ;;
         ret [ (lit "status", VStr (lit "error"));
               (lit "message", VStr (lit "Upload error: " +++ exn_str e)) ]) ]
  end
  end.

(** The lines printed outside every [try]: line 46, and the lines of the
    three [except] handlers (58, 66, 85). *)
Definition unprotected_line (line : str) : Prop :=
  line = lit "[INFO] Running upload_csv_to_snowflake tool..."
  \/ exists d,
       line = lit "[ERROR] Failed to read CSV: " +++ d
       \/ line = lit "[ERROR] Snowflake connection failed: " +++ d
       \/ line = lit "[ERROR] Upload error: " +++ d.

(** The text the handler of a stage prints before the description of the
    exception it caught. *)
Definition stage_diagnostic (ev : event) : str :=
  match ev with
  | EConnect _ _ => lit "[ERROR] Snowflake connection failed: "
  | _ => lit "[ERROR] Upload error: "
  end.

End Diagnostics.

(** Two diagnostic channels for the first scripted world. *)
Module Channel.

(** stderr works. *)
Definition quiet (line : str) (w : Fake.world) : outcome unit * Fake.world :=
  (Val tt, w).

(** stderr is a pipe whose reader has gone. *)
Definition broken (line : str) (w : Fake.world) : outcome unit * Fake.world :=
  (Raise (Exc (lit "[Errno 32] Broken pipe")), w).

(** stderr works for the [INFO] lines and fails for the others. *)
Definition failing_on_errors (line : str) (w : Fake.world)
    : outcome unit * Fake.world :=
  if str_eqb (firstn 6 line) (lit "[INFO]") then (Val tt, w)
  else (Raise (Exc (lit "[Errno 32] Broken pipe")), w).

End Channel.

(* ------------------------------------------------------------------ *)
(** ** Running the program symbolically *)

Section Properties.

Context {St : Type} {C : Collaborators St}.

(** The dict comprehension reads the seven warehouse settings. *)
Lemma sf_config_run :
  dict_comprehension [] (tl REQUIRED_ENV) getenv
  = fun s : St => (Val (sf_config_of s), s, []).
Proof. reflexivity. Qed.

(** [sf_config["SNOWFLAKE_TABLE"]] never raises [KeyError]. *)
Lemma sf_config_table (s : St) :
  dict_getitem (St:=St) (sf_config_of s) (lit "SNOWFLAKE_TABLE")
  = ret (table_of s).
Proof. reflexivity. Qed.

(** The assignment to [df.columns] never raises: it gives as many labels
    as there are columns. *)
Lemma set_columns_upper (df : DataFrame) :
  set_columns (St:=St) df (map str_upper (df_columns df)) = ret (normalized df).
Proof.
  unfold set_columns. rewrite length_map, Nat.eqb_refl. reflexivity.
Qed.

Lemma toupper_full_ascii (c : N) :
  (c < 128)%N ->
  exists u, toupper_full c = [u] /\ ascii_lower u = false.
Proof.
  intros Hc. unfold toupper_full.
  destruct (ascii_lower c) eqn:Hl.
  - exists (c - 32)%N. split; [reflexivity|].
    unfold ascii_lower in *. apply andb_true_iff in Hl. destruct Hl as [H1 H2].
    apply N.leb_le in H1. apply N.leb_le in H2.
    apply andb_false_iff. left. apply N.leb_gt. lia.
  - exists c. apply N.ltb_lt in Hc. rewrite Hc. split; [reflexivity | exact Hl].
Qed.

(** On an ASCII name, [upper] keeps the length and leaves no letter a-z. *)
Lemma str_upper_ascii (name : str) :
  Forall (fun cp => (cp < 128)%N) name ->
  Forall (fun cp => ascii_lower cp = false) (str_upper name)
  /\ length (str_upper name) = length name.
Proof.
  induction 1 as [|c name Hc _ [IH1 IH2]]; [split; constructor|].
  destruct (toupper_full_ascii Hc) as [u [Hu Hl]].
  unfold str_upper in *. cbn [flat_map]. rewrite Hu. cbn [app length].
  split; [constructor; assumption | congruence].
Qed.

(** The validation loop stops at the first variable it takes for missing. *)
Lemma validation_loop (l : list str) (s : St) :
  for_each l (fun var =>
    v <- getenv var ;;
    if py_not v then
      print (lit "[ERROR] Missing environment variable: " +++ var) ;;
      sys_exit 1
    else ret tt) s
  = match find (missing s) l with
    | Some var =>
        (Raise (SystemExit 1), s,
         [EPrint (lit "[ERROR] Missing environment variable: " +++ var)])
    | None => (Val tt, s, [])
    end.
Proof.
  induction l as [|var l IH]; [reflexivity|].
  cbn [for_each find]. unfold bind at 1. unfold bind at 1.
  unfold getenv at 1. unfold missing at 1.
  destruct (py_not (os_getenv var s)) eqn:Hv.
  - reflexivity.
  - cbn [ret app]. rewrite IH. destruct (find (missing s) l); reflexivity.
Qed.

(** Unfolding of the monad's operations, up to the next library call. *)
Ltac exec :=
  cbv beta iota delta
    [bind try_except extern print getenv ret raise sys_exit select_handler
     isinstance_Exception isinstance_KeyboardInterrupt negb subscript0
     path_exists].

(** Case analysis on what the next library call does. *)
Ltac next_call :=
  match goal with
  | |- context [pd_read_csv ?p ?s] =>
      destruct (pd_read_csv p s) as [[?df|[?d| |?code]] ?s] eqn:?Hread
  | |- context [sf_connect ?k ?s] =>
      destruct (sf_connect k s) as [[?c|[?d| |?code]] ?s] eqn:?Hconn
  | |- context [write_pandas ?c ?df ?t ?s] =>
      destruct (write_pandas c df t s)
        as [[[[[[|] ?nchunks] ?nrows] ?out]|[?d| |?code]] ?s] eqn:?Hload
  | |- context [conn_cursor ?c ?s] =>
      destruct (conn_cursor c s) as [[?cur|[?d| |?code]] ?s] eqn:?Hcur
  | |- context [cur_execute ?cur ?q ?s] =>
      destruct (cur_execute cur q s) as [[[]|[?d| |?code]] ?s] eqn:?Hexe
  | |- context [cur_fetchone ?cur ?s] =>
      destruct (cur_fetchone cur s)
        as [[[[|?v ?vs]|]|[?d| |?code]] ?s] eqn:?Hfetch
  | |- context [cur_close ?cur ?s] =>
      destruct (cur_close cur s) as [[[]|[?d| |?code]] ?s] eqn:?Hcc
  | |- context [conn_close ?c ?s] =>
      destruct (conn_close c s) as [[[]|[?d| |?code]] ?s] eqn:?Hclose
  end.

Ltac step :=
  first [ rewrite set_columns_upper | rewrite sf_config_table | next_call ];
  exec.

(** Entering the tool: the prologue up to the call of [read_csv]. *)
Ltac enter :=
  unfold upload_csv_to_snowflake; rewrite sf_config_run; exec.

(** Whatever the libraries do, a bulk load is only ever called with the
    normalized data frame and the configured table. *)
Lemma bulk_load_argument (s0 : St) (df : DataFrame) (s1 : St) :
  pd_read_csv (os_getenv (lit "CSV_PATH") s0) s0 = (Val df, s1) ->
  forall c df' table r,
    In (EWritePandas c df' table r) (snd (upload_csv_to_snowflake s0)) ->
    df' = normalized df /\ table = table_of s0.
Proof.
  intros Hread c df' table r. enter. rewrite Hread. exec.
  repeat step;
    cbn [snd app In]; intros H;
    repeat (destruct H as [H|H]; [try discriminate H|]); try contradiction;
    injection H as <- <- <- <-; split; reflexivity.
Qed.

(* ------------------------------------------------------------------ *)
(** ** Column normalization *)

(** C1. When [read_csv] parses the file, every bulk-load call of the
    invocation receives the data frame with each column name replaced by
    its [upper()]; a name made of ASCII characters keeps its length and
    has no letter a-z left. *)
Theorem columns_upper_before_bulk_load (s0 : St) (df : DataFrame) (s1 : St) :
  pd_read_csv (os_getenv (lit "CSV_PATH") s0) s0 = (Val df, s1) ->
  forall c df' table r,
    In (EWritePandas c df' table r) (snd (upload_csv_to_snowflake s0)) ->
    df_columns df' = map str_upper (df_columns df)
    /\ forall name, In name (df_columns df) ->
         Forall (fun cp => (cp < 128)%N) name ->
         In (str_upper name) (df_columns df')
         /\ Forall (fun cp => ascii_lower cp = false) (str_upper name)
         /\ length (str_upper name) = length name.
Proof.
  intros Hread c df' table r Hin.
  destruct (bulk_load_argument _ Hread _ _ _ _ Hin) as [-> _].
  split; [reflexivity|].
  intros name Hname Hascii. split.
  - cbn [normalized df_columns]. apply in_map. exact Hname.
  - apply str_upper_ascii. exact Hascii.
Qed.

(** C10. Normalization touches the labels only: the data frame a bulk
    load receives has the rows of the parsed one (same number, order and
    cells) and as many columns, the label at each position being the
    [upper()] of the parsed label at that position. *)
Theorem normalization_changes_only_labels (s0 : St) (df : DataFrame) (s1 : St) :
  pd_read_csv (os_getenv (lit "CSV_PATH") s0) s0 = (Val df, s1) ->
  forall c df' table r,
    In (EWritePandas c df' table r) (snd (upload_csv_to_snowflake s0)) ->
    df_rows df' = df_rows df
    /\ length (df_columns df') = length (df_columns df)
    /\ forall i, nth_error (df_columns df') i
                 = option_map str_upper (nth_error (df_columns df) i).
Proof.
  intros Hread c df' table r Hin.
  destruct (bulk_load_argument _ Hread _ _ _ _ Hin) as [-> _].
  cbn [normalized df_rows df_columns].
  split; [reflexivity|]. split; [apply length_map|].
  intros i. apply nth_error_map.
Qed.

(* ------------------------------------------------------------------ *)
(** ** Results of the stages *)

(** C5. When [read_csv] raises an [Exception], the tool returns the error
    result whose message is "Error reading CSV: " followed by the
    description of the exception; it raises nothing, calls no other
    library function, and a further invocation runs as usual from the
    state the failed one left. *)
Theorem parse_failure_reported (s0 : St) (d : str) (s1 : St) :
  pd_read_csv (os_getenv (lit "CSV_PATH") s0) s0 = (Raise (Exc d), s1) ->
  let tr := [ EPrint (lit "[INFO] Running upload_csv_to_snowflake tool...");
              EReadCsv (os_getenv (lit "CSV_PATH") s0) (Raise (Exc d));
              EPrint (lit "[ERROR] Failed to read CSV: " +++ d) ] in
  upload_csv_to_snowflake s0
  = (Val (error_result (lit "Error reading CSV: " +++ d)), s1, tr)
  /\ (upload_csv_to_snowflake ;; upload_csv_to_snowflake) s0
     = (fst (fst (upload_csv_to_snowflake s1)),
        snd (fst (upload_csv_to_snowflake s1)),
        tr ++ snd (upload_csv_to_snowflake s1)).
Proof.
  intros Hread tr.
  assert (Hrun : upload_csv_to_snowflake s0
                 = (Val (error_result (lit "Error reading CSV: " +++ d)), s1, tr)).
  { enter. rewrite Hread. exec. reflexivity. }
  split; [exact Hrun|].
  unfold bind at 1. rewrite Hrun.
  destruct (upload_csv_to_snowflake s1) as [[o s2] t2]. reflexivity.
Qed.

(** C4. When [connect] raises an [Exception], the tool returns the error
    result whose message is "Connection failed: " followed by the
    description of the exception, and makes neither the bulk-load call nor
    any call of the verification step. *)
Theorem connection_failure_reported (s0 : St) (df : DataFrame) (s1 : St)
    (d : str) (s2 : St) :
  pd_read_csv (os_getenv (lit "CSV_PATH") s0) s0 = (Val df, s1) ->
  sf_connect (sf_config_of s0) s1 = (Raise (Exc d), s2) ->
  fst (upload_csv_to_snowflake s0)
  = (Val (error_result (lit "Connection failed: " +++ d)), s2)
  /\ existsb is_bulk_load (snd (upload_csv_to_snowflake s0)) = false
  /\ existsb is_verification (snd (upload_csv_to_snowflake s0)) = false.
Proof.
  intros Hread Hconn. enter. rewrite Hread. exec.
  rewrite set_columns_upper. exec. rewrite Hconn. exec.
  repeat split.
Qed.

(** C6. When [write_pandas] returns with a false success flag, the tool
    returns the error result with the message "Upload to Snowflake
    failed", raises nothing, and makes no call of the verification
    step. *)
Theorem load_rejection_reported (s0 : St) (df : DataFrame) (s1 : St)
    (c : conn) (s2 : St) (nchunks nrows : Z) (out : list pyval) (s3 : St) :
  pd_read_csv (os_getenv (lit "CSV_PATH") s0) s0 = (Val df, s1) ->
  sf_connect (sf_config_of s0) s1 = (Val c, s2) ->
  write_pandas c (normalized df) (table_of s0) s2
  = (Val (false, nchunks, nrows, out), s3) ->
  fst (upload_csv_to_snowflake s0)
  = (Val (error_result (lit "Upload to Snowflake failed")), s3)
  /\ existsb is_verification (snd (upload_csv_to_snowflake s0)) = false.
Proof.
  intros Hread Hconn Hload. enter. rewrite Hread. exec.
  rewrite set_columns_upper. exec. rewrite Hconn. exec.
  rewrite sf_config_table. exec. rewrite Hload. exec.
  split; reflexivity.
Qed.

Lemma suffix_here {A} (suf : list A) : suf = [] ++ suf.
Proof. reflexivity. Qed.

Lemma suffix_later {A} (x : A) (l pre suf : list A) :
  l = pre ++ suf -> x :: l = (x :: pre) ++ suf.
Proof. intros ->. reflexivity. Qed.

(** Splits a list given in full into a prefix and a suffix of known length. *)
Ltac find_suffix :=
  first [ apply suffix_here | eapply suffix_later; find_suffix ].

(** C8. An invocation that returns a result with status "success" has
    called [cur.close()] and then [conn.close()], on the cursor and the
    connection it opened; both returned, and only the last diagnostic line
    follows them. *)
Theorem success_releases_connection (s0 : St) (result : dict pyval) (s' : St)
    (tr : list event) :
  upload_csv_to_snowflake s0 = (Val result, s', tr) ->
  dict_get (lit "status") result = Some (VStr (lit "success")) ->
  exists c cur pre line,
    tr = pre ++ [ ECursorClose cur (Val tt); EConnClose c (Val tt); EPrint line ]
    /\ In (EConnect (sf_config_of s0) (Val c)) pre
    /\ In (ECursor c (Val cur)) pre.
Proof.
  enter. repeat step; cbn [app]; intros H Hstatus;
    try discriminate H; injection H as <- <- <-;
    try (cbv in Hstatus; discriminate Hstatus).
  eexists _, _, _, _. split; [find_suffix|].
  split; cbn [In]; auto 20.
Qed.

(** C2, as the code has it.  With a warehouse that nobody else writes to:
    when the bulk load reports success and [nrows] rows loaded into a
    table that held [row_count] rows, and the calls of the verification
    step and the two [close()] return without raising, the result is the
    success result with [rows_uploaded = nrows] and [total_rows_in_table =
    row_count + nrows]. *)
Theorem bulk_load_success_counts (row_count : option str -> St -> Z)
    (s0 : St) (df : DataFrame) (s1 : St) (c : conn) (s2 : St)
    (nchunks nrows : Z) (out : list pyval) (s3 : St) (cur : cursor)
    (s4 s5 : St) (row : option (list pyval)) (s6 s7 s8 : St) :
  warehouse_contract row_count ->
  pd_read_csv (os_getenv (lit "CSV_PATH") s0) s0 = (Val df, s1) ->
  sf_connect (sf_config_of s0) s1 = (Val c, s2) ->
  write_pandas c (normalized df) (table_of s0) s2
  = (Val (true, nchunks, nrows, out), s3) ->
  conn_cursor c s3 = (Val cur, s4) ->
  cur_execute cur (count_query (table_of s0)) s4 = (Val tt, s5) ->
  cur_fetchone cur s5 = (Val row, s6) ->
  cur_close cur s6 = (Val tt, s7) ->
  conn_close c s7 = (Val tt, s8) ->
  fst (upload_csv_to_snowflake s0)
  = (Val (success_result nrows (VInt (row_count (table_of s0) s2 + nrows))),
     s8).
Proof.
  intros Hw Hread Hconn Hload Hcur Hexe Hfetch Hcc Hclose.
  pose proof (count_fetched Hw _ _ _ Hexe Hfetch) as Hrow.
  rewrite (cursor_keeps Hw _ _ (table_of s0) Hcur) in Hrow.
  rewrite (load_appends Hw _ _ _ _ Hload eq_refl) in Hrow.
  subst row.
  enter. rewrite Hread. exec. rewrite set_columns_upper. exec.
  rewrite Hconn. exec. rewrite sf_config_table. exec.
  rewrite Hload. exec. rewrite Hcur. exec. rewrite Hexe. exec.
  rewrite Hfetch. exec. rewrite Hcc. exec. rewrite Hclose. exec.
  reflexivity.
Qed.

(** C9. A file that parses to no rows is not treated apart.  With a
    warehouse that nobody else writes to, once the connection is made:
    the bulk load is called with the empty data frame; when it reports
    success, [conn.cursor()] is called and, on the cursor it gives, the
    counting query is executed; and a result with status "success" has
    [rows_uploaded = 0] and [total_rows_in_table] equal to the number of
    rows the table held before the load. *)
Theorem empty_file_still_uploaded (row_count : option str -> St -> Z)
    (s0 : St) (df : DataFrame) (s1 : St) (c : conn) (s2 : St) :
  warehouse_contract row_count ->
  pd_read_csv (os_getenv (lit "CSV_PATH") s0) s0 = (Val df, s1) ->
  df_rows df = [] ->
  sf_connect (sf_config_of s0) s1 = (Val c, s2) ->
  let tr := snd (upload_csv_to_snowflake s0) in
  In (EWritePandas c (normalized df) (table_of s0)
        (fst (write_pandas c (normalized df) (table_of s0) s2))) tr
  /\ (forall nchunks nrows out s3,
        write_pandas c (normalized df) (table_of s0) s2
        = (Val (true, nchunks, nrows, out), s3) ->
        In (ECursor c (fst (conn_cursor c s3))) tr
        /\ forall cur s4,
             conn_cursor c s3 = (Val cur, s4) ->
             In (EExecute cur (count_query (table_of s0))
                   (fst (cur_execute cur (count_query (table_of s0)) s4))) tr)
  /\ (forall result,
        fst (fst (upload_csv_to_snowflake s0)) = Val result ->
        dict_get (lit "status") result = Some (VStr (lit "success")) ->
        dict_get (lit "rows_uploaded") result = Some (VInt 0)
        /\ dict_get (lit "total_rows_in_table") result
           = Some (VInt (row_count (table_of s0) s2))).
Proof.
  intros Hw Hread Hrows Hconn tr. subst tr.
  enter. rewrite Hread. exec. rewrite set_columns_upper. exec.
  rewrite Hconn. exec. rewrite sf_config_table. exec.
  split; [|split].
  - repeat step; cbn [fst snd app In]; auto 20.
  - intros nchunks nrows out s3 Hload. rewrite Hload. exec. split.
    + repeat step; cbn [fst snd app In]; auto 20.
    + intros cur s4 Hcur. rewrite Hcur. exec.
      repeat step; cbn [fst snd app In]; auto 20.
  - repeat step; cbn [fst]; intros result H Hstatus;
      try discriminate H; injection H as <-;
      try (cbv in Hstatus; discriminate Hstatus).
    pose proof (count_fetched Hw _ _ _ Hexe Hfetch) as Hrow.
    rewrite (cursor_keeps Hw _ _ (table_of s0) Hcur) in Hrow.
    rewrite (load_appends Hw _ _ _ _ Hload eq_refl) in Hrow.
    pose proof (load_reports Hw _ _ _ _ Hload eq_refl) as Hn.
    unfold df_len in Hn. cbn [normalized df_rows] in Hn.
    rewrite Hrows in Hn. cbn [length Z.of_nat] in Hn. subst nrows.
    injection Hrow as -> ->. rewrite Z.add_0_r.
    split; reflexivity.
Qed.

(* ------------------------------------------------------------------ *)
(** ** The configuration gate *)

Lemma absent_is_missing (s : St) (var : str) :
  os_getenv var s = None -> missing s var = true.
Proof. unfold missing. intros ->. reflexivity. Qed.

(** C7. Once [load_dotenv] has returned: if one of the eight required
    variables is absent, or [CSV_PATH] names a path that does not exist,
    the script ends by [sys.exit(1)], so the exit status is 1; the last
    line printed names a required variable the validation loop took for
    missing, or else the path that was not found; and neither the MCP
    server is created, nor the tool registered, nor the server run. *)
Theorem startup_gate (s0 : St) (b : bool) (s1 : St) :
  load_dotenv s0 = (Val b, s1) ->
  (exists var, In var REQUIRED_ENV /\ os_getenv var s1 = None)
  \/ (exists p, os_getenv (lit "CSV_PATH") s1 = Some p
                /\ os_path_exists p s1 = false) ->
  exists diagnostic,
    script s0
    = (Raise (SystemExit 1), s1,
       [ ELoadDotenv (Val b);
         EPrint (lit "[INFO] Loading environment variables...");
         EPrint diagnostic ])
    /\ exit_status (fst (fst (script s0))) = 1%Z
    /\ existsb is_serving (snd (script s0)) = false
    /\ ((exists var, In var REQUIRED_ENV /\ missing s1 var = true
           /\ diagnostic = lit "[ERROR] Missing environment variable: " +++ var)
        \/ (exists p, os_getenv (lit "CSV_PATH") s1 = Some p
              /\ os_path_exists p s1 = false
              /\ diagnostic = lit "[ERROR] CSV file not found: " +++ p)).
Proof.
  intros Hload Hbad.
  pose proof (validation_loop REQUIRED_ENV s1) as Hloop. revert Hloop.
  unfold script, startup. exec. rewrite Hload. intros ->.
  destruct (find (missing s1) REQUIRED_ENV) as [var|] eqn:Hfind.
  - apply find_some in Hfind. destruct Hfind as [Hin Hmiss].
    eexists. split; [reflexivity|]. repeat split.
    left. exists var. repeat split; assumption.
  - destruct Hbad as [[var [Hin Habs]] | [p [Hp Hex]]].
    + apply absent_is_missing in Habs.
      rewrite (find_none _ _ Hfind _ Hin) in Habs. discriminate Habs.
    + rewrite Hp. exec. rewrite Hex. cbn [fmt_opt].
      eexists. split; [reflexivity|]. repeat split.
      right. exists p. repeat split; assumption.
Qed.

End Properties.

(* ------------------------------------------------------------------ *)
(** ** The properties on the scripted world *)

(** The scripted warehouse keeps the contract. *)
Lemma fake_lawful : warehouse_contract Fake.row_count.
Proof.
  constructor.
  - intros c df table s success nchunks nrows output s' H ->. revert H.
    cbn [write_pandas Fake.collaborators]. unfold Fake.do_write_pandas.
    destruct (Fake.loading s) as [[|]|e]; intros H; inversion H; subst.
    reflexivity.
  - intros c df table s success nchunks nrows output s' H ->. revert H.
    cbn [write_pandas Fake.collaborators]. unfold Fake.do_write_pandas.
    destruct (Fake.loading s) as [[|]|e]; intros H; inversion H; subst.
    reflexivity.
  - intros c s cur s' table H. inversion H; subst. reflexivity.
  - intros cur table s s1 row s2 H1 H2. revert H1.
    cbn [cur_execute Fake.collaborators]. unfold Fake.do_execute.
    destruct (Fake.querying s) as [[]|e]; intros H1; inversion H1; subst.
    inversion H2; subst. reflexivity.
Qed.

(** Membership in a list that evaluates to its elements. *)
Ltac in_list := vm_compute; repeat (first [left; reflexivity | right]).

(** The example of the specification: id,Name,Value becomes ID,NAME,VALUE. *)
Example sample_columns_upper :
  map str_upper (df_columns Fake.sample) = [lit "ID"; lit "NAME"; lit "VALUE"].
Proof. reflexivity. Qed.

(** Outside ASCII the length of a name can change: the sharp s becomes SS. *)
Example sharp_s_upper : str_upper (C:=Fake.collaborators) [223%N] = lit "SS".
Proof. reflexivity. Qed.

(** The healthy run: 2 rows loaded into a table of 5. *)
Example healthy_run :
  fst (fst (upload_csv_to_snowflake Fake.healthy))
  = Val (success_result 2 (VInt 7)).
Proof. reflexivity. Qed.

(** The healthy script runs to its end. *)
Example healthy_script : exit_status (fst (fst (script Fake.healthy))) = 0%Z.
Proof. reflexivity. Qed.

(** The healthy run loads the sample with the columns ID, NAME, VALUE. *)
Lemma columns_upper_before_bulk_load_witness :
  pd_read_csv (os_getenv (lit "CSV_PATH") Fake.healthy) Fake.healthy
  = (Val Fake.sample, Fake.healthy)
  /\ In Scenario.load_event (snd (upload_csv_to_snowflake Fake.healthy))
  /\ df_columns Scenario.sample_upper = map str_upper (df_columns Fake.sample)
  /\ In (str_upper (lit "Name")) (df_columns Scenario.sample_upper).
Proof.
  assert (Hread : pd_read_csv (os_getenv (lit "CSV_PATH") Fake.healthy)
                    Fake.healthy = (Val Fake.sample, Fake.healthy))
    by reflexivity.
  assert (Hin : In Scenario.load_event
                  (snd (upload_csv_to_snowflake Fake.healthy)))
    by in_list.
  destruct (columns_upper_before_bulk_load Fake.healthy Hread _ _ _ _ Hin)
    as [Hcols Hnames].
  split; [exact Hread|]. split; [exact Hin|]. split; [exact Hcols|].
  apply (Hnames (lit "Name")).
  - in_list.
  - repeat constructor.
Defined.

(** The healthy run loads the two rows of the sample as they were parsed. *)
Lemma normalization_changes_only_labels_witness :
  pd_read_csv (os_getenv (lit "CSV_PATH") Fake.healthy) Fake.healthy
  = (Val Fake.sample, Fake.healthy)
  /\ In Scenario.load_event (snd (upload_csv_to_snowflake Fake.healthy))
  /\ df_rows Scenario.sample_upper = df_rows Fake.sample
  /\ length (df_columns Scenario.sample_upper) = length (df_columns Fake.sample).
Proof.
  assert (Hread : pd_read_csv (os_getenv (lit "CSV_PATH") Fake.healthy)
                    Fake.healthy = (Val Fake.sample, Fake.healthy))
    by reflexivity.
  assert (Hin : In Scenario.load_event
                  (snd (upload_csv_to_snowflake Fake.healthy)))
    by in_list.
  destruct (normalization_changes_only_labels Fake.healthy Hread _ _ _ _ Hin)
    as [Hrows [Hlen _]].
  split; [exact Hread|]. split; [exact Hin|]. split; [exact Hrows | exact Hlen].
Defined.

(** A missing file gives the error result of the read stage. *)
Lemma parse_failure_reported_witness :
  pd_read_csv (os_getenv (lit "CSV_PATH") Scenario.read_fails) Scenario.read_fails
  = (Raise (Exc (lit "No such file or directory")), Scenario.read_fails)
  /\ fst (fst (upload_csv_to_snowflake Scenario.read_fails))
     = Val (error_result (lit "Error reading CSV: No such file or directory")).
Proof.
  assert (Hread : pd_read_csv (os_getenv (lit "CSV_PATH") Scenario.read_fails)
                    Scenario.read_fails
                  = (Raise (Exc (lit "No such file or directory")),
                     Scenario.read_fails))
    by reflexivity.
  split; [exact Hread|].
  destruct (parse_failure_reported Scenario.read_fails Hread) as [Hrun _].
  rewrite Hrun. reflexivity.
Defined.

(** Rejected credentials give the error result of the connect stage, and
    no bulk load. *)
Lemma connection_failure_reported_witness :
  sf_connect (sf_config_of Scenario.connect_fails) Scenario.connect_fails
  = (Raise (Exc (lit "Incorrect username or password")), Scenario.connect_fails)
  /\ fst (upload_csv_to_snowflake Scenario.connect_fails)
     = (Val (error_result
               (lit "Connection failed: Incorrect username or password")),
        Scenario.connect_fails)
  /\ existsb is_bulk_load (snd (upload_csv_to_snowflake Scenario.connect_fails))
     = false.
Proof.
  split; [reflexivity|].
  assert (Hread : pd_read_csv (os_getenv (lit "CSV_PATH") Scenario.connect_fails)
                    Scenario.connect_fails
                  = (Val Fake.sample, Scenario.connect_fails))
    by reflexivity.
  assert (Hconn : sf_connect (sf_config_of Scenario.connect_fails)
                    Scenario.connect_fails
                  = (Raise (Exc (lit "Incorrect username or password")),
                     Scenario.connect_fails))
    by reflexivity.
  destruct (connection_failure_reported Scenario.connect_fails Hread Hconn)
    as [Hres [Hload _]].
  split; [exact Hres | exact Hload].
Defined.

(** A rejected load gives the fixed error result. *)
Lemma load_rejection_reported_witness :
  write_pandas 3%N Scenario.sample_upper Scenario.table Scenario.load_rejected
  = (Val (false, 0%Z, 0%Z, []), Scenario.load_rejected)
  /\ fst (upload_csv_to_snowflake Scenario.load_rejected)
     = (Val (error_result (lit "Upload to Snowflake failed")),
        Scenario.load_rejected).
Proof.
  assert (Hread : pd_read_csv (os_getenv (lit "CSV_PATH") Scenario.load_rejected)
                    Scenario.load_rejected
                  = (Val Fake.sample, Scenario.load_rejected))
    by reflexivity.
  assert (Hconn : sf_connect (sf_config_of Scenario.load_rejected)
                    Scenario.load_rejected
                  = (Val 3%N, Scenario.load_rejected))
    by reflexivity.
  assert (Hload : write_pandas 3%N (normalized Fake.sample)
                    (table_of Scenario.load_rejected) Scenario.load_rejected
                  = (Val (false, 0%Z, 0%Z, []), Scenario.load_rejected))
    by reflexivity.
  split; [reflexivity|].
  exact (proj1 (load_rejection_reported Scenario.load_rejected
                  Hread Hconn Hload)).
Defined.

(** C3 as stated fails: a [KeyboardInterrupt] raised while connecting
    leaves the tool. *)
Lemma interrupt_escapes_counterexample :
  sf_connect (sf_config_of Scenario.interrupted) Scenario.interrupted
  = (Raise KeyboardInterrupt, Scenario.interrupted)
  /\ fst (fst (upload_csv_to_snowflake Scenario.interrupted))
     = Raise KeyboardInterrupt.
Proof. split; reflexivity. Qed.

(** The healthy run ends with the two [close()] calls and the last line. *)
Lemma success_releases_connection_witness :
  dict_get (lit "status") (success_result 2 (VInt 7))
  = Some (VStr (lit "success"))
  /\ exists c cur pre line,
       snd (upload_csv_to_snowflake Fake.healthy)
       = pre ++ [ ECursorClose cur (Val tt); EConnClose c (Val tt);
                  EPrint line ].
Proof.
  split; [reflexivity|].
  destruct (upload_csv_to_snowflake Fake.healthy) as [[o w] tr] eqn:Hrun.
  assert (Ho : o = Val (success_result 2 (VInt 7)))
    by (vm_compute in Hrun; injection Hrun as <- _ _; reflexivity).
  subst o.
  destruct (success_releases_connection Fake.healthy Hrun)
    as [c [cur [pre [line [Htr _]]]]]; [reflexivity|].
  exists c, cur, pre, line. exact Htr.
Defined.

(** C2 as stated fails: the bulk load of 2 rows into a table of 5
    succeeds, the counting query then raises, and the result is an error
    result, not the success result with 2 and 7. *)
Lemma verification_failure_counterexample :
  write_pandas 3%N (normalized Fake.sample) (table_of Scenario.query_fails)
    Scenario.query_fails
  = (Val (true, 1%Z, 2%Z, []), Scenario.loaded Scenario.query_fails)
  /\ Fake.row_count (table_of Scenario.query_fails) Scenario.query_fails = 5%Z
  /\ In Scenario.load_event
        (snd (upload_csv_to_snowflake Scenario.query_fails))
  /\ fst (fst (upload_csv_to_snowflake Scenario.query_fails))
     = Val (error_result (lit "Upload error: timeout"))
  /\ fst (fst (upload_csv_to_snowflake Scenario.query_fails))
     <> Val (success_result 2 (VInt 7)).
Proof.
  split; [reflexivity|]. split; [reflexivity|]. split; [in_list|].
  split; [reflexivity|]. vm_compute. discriminate.
Qed.

(** The healthy run: 2 rows into a table of 5 gives 2 and 5 + 2. *)
Lemma bulk_load_success_counts_witness :
  write_pandas 3%N (normalized Fake.sample) (table_of Fake.healthy) Fake.healthy
  = (Val (true, 1%Z, 2%Z, []), Scenario.loaded Fake.healthy)
  /\ Fake.row_count (table_of Fake.healthy) Fake.healthy = 5%Z
  /\ fst (fst (upload_csv_to_snowflake Fake.healthy))
     = Val (success_result 2 (VInt (5 + 2))).
Proof.
  split; [reflexivity|]. split; [reflexivity|].
  assert (Hread : pd_read_csv (os_getenv (lit "CSV_PATH") Fake.healthy)
                    Fake.healthy = (Val Fake.sample, Fake.healthy))
    by reflexivity.
  assert (Hconn : sf_connect (sf_config_of Fake.healthy) Fake.healthy
                  = (Val 3%N, Fake.healthy))
    by reflexivity.
  assert (Hload : write_pandas 3%N (normalized Fake.sample)
                    (table_of Fake.healthy) Fake.healthy
                  = (Val (true, 1%Z, 2%Z, []), Scenario.loaded Fake.healthy))
    by reflexivity.
  assert (Hcur : conn_cursor 3%N (Scenario.loaded Fake.healthy)
                 = (Val 4%N, Scenario.loaded Fake.healthy))
    by reflexivity.
  assert (Hexe : cur_execute 4%N (count_query (table_of Fake.healthy))
                   (Scenario.loaded Fake.healthy)
                 = (Val tt, Scenario.queried (Scenario.loaded Fake.healthy)))
    by reflexivity.
  assert (Hfetch : cur_fetchone 4%N
                     (Scenario.queried (Scenario.loaded Fake.healthy))
                   = (Val (Some [VInt 7]),
                      Scenario.queried (Scenario.loaded Fake.healthy)))
    by reflexivity.
  assert (Hcc : cur_close 4%N (Scenario.queried (Scenario.loaded Fake.healthy))
                = (Val tt, Scenario.queried (Scenario.loaded Fake.healthy)))
    by reflexivity.
  assert (Hclose : conn_close 3%N
                     (Scenario.queried (Scenario.loaded Fake.healthy))
                   = (Val tt, Scenario.queried (Scenario.loaded Fake.healthy)))
    by reflexivity.
  exact (f_equal fst
           (bulk_load_success_counts Fake.healthy fake_lawful Hread Hconn
              Hload Hcur Hexe Hfetch Hcc Hclose)).
Defined.

(** The empty file is loaded and counted like any other. *)
Lemma empty_file_still_uploaded_witness :
  df_rows Fake.empty_file = []
  /\ In (EWritePandas 3%N (normalized Fake.empty_file) Scenario.table
           (Val (true, 1%Z, 0%Z, [])))
        (snd (upload_csv_to_snowflake Scenario.empty))
  /\ In (EExecute 4%N (lit "SELECT COUNT(*) FROM T") (Val tt))
        (snd (upload_csv_to_snowflake Scenario.empty))
  /\ dict_get (lit "rows_uploaded") (success_result 0 (VInt 5))
     = Some (VInt 0).
Proof.
  assert (Hread : pd_read_csv (os_getenv (lit "CSV_PATH") Scenario.empty)
                    Scenario.empty = (Val Fake.empty_file, Scenario.empty))
    by reflexivity.
  assert (Hconn : sf_connect (sf_config_of Scenario.empty) Scenario.empty
                  = (Val 3%N, Scenario.empty))
    by reflexivity.
  assert (Hrows : df_rows Fake.empty_file = []) by reflexivity.
  destruct (empty_file_still_uploaded Scenario.empty fake_lawful Hread Hrows
              Hconn) as [Hload [Hverify Hresult]].
  split; [exact Hrows|]. split; [exact Hload|]. split.
  - assert (Hw : write_pandas 3%N (normalized Fake.empty_file)
                   (table_of Scenario.empty) Scenario.empty
                 = (Val (true, 1%Z, 0%Z, []), Scenario.empty))
      by reflexivity.
    destruct (Hverify _ _ _ _ Hw) as [_ Hexe].
    assert (Hcur : conn_cursor 3%N Scenario.empty = (Val 4%N, Scenario.empty))
      by reflexivity.
    exact (Hexe _ _ Hcur).
  - apply (Hresult (success_result 0 (VInt 5))); reflexivity.
Defined.

(** Without SNOWFLAKE_TABLE, and without the file, the script exits with 1. *)
Lemma startup_gate_witness :
  os_getenv (lit "SNOWFLAKE_TABLE") Scenario.no_table = None
  /\ fst (fst (script Scenario.no_table)) = Raise (SystemExit 1)
  /\ os_path_exists (lit "data.csv") Scenario.no_file = false
  /\ fst (fst (script Scenario.no_file)) = Raise (SystemExit 1).
Proof.
  split; [reflexivity|]. split.
  - assert (Hload : load_dotenv Scenario.no_table = (Val true, Scenario.no_table))
      by reflexivity.
    destruct (startup_gate Scenario.no_table Hload) as [diag [Hrun _]].
    + left. exists (lit "SNOWFLAKE_TABLE"). split; [in_list | reflexivity].
    + rewrite Hrun. reflexivity.
  - split; [reflexivity|].
    assert (Hload : load_dotenv Scenario.no_file = (Val true, Scenario.no_file))
      by reflexivity.
    destruct (startup_gate Scenario.no_file Hload) as [diag [Hrun _]].
    + right. exists (lit "data.csv"). split; reflexivity.
    + rewrite Hrun. reflexivity.
Defined.

(* ------------------------------------------------------------------ *)
(** ** Further properties of the tool *)

Section Tool.

Context {St : Type} {C : Collaborators St}.

Ltac unfold_monad :=
  cbv beta iota delta
    [bind try_except extern print getenv ret raise sys_exit select_handler
     isinstance_Exception isinstance_KeyboardInterrupt negb subscript0
     path_exists].

Ltac case_call :=
  match goal with
  | |- context [pd_read_csv ?p ?s] =>
      destruct (pd_read_csv p s) as [[?df|[?d| |?code]] ?s] eqn:?Hread
  | |- context [sf_connect ?k ?s] =>
      destruct (sf_connect k s) as [[?c|[?d| |?code]] ?s] eqn:?Hconn
  | |- context [write_pandas ?c ?df ?t ?s] =>
      destruct (write_pandas c df t s)
        as [[[[[[|] ?nchunks] ?nrows] ?out]|[?d| |?code]] ?s] eqn:?Hload
  | |- context [conn_cursor ?c ?s] =>
      destruct (conn_cursor c s) as [[?cur|[?d| |?code]] ?s] eqn:?Hcur
  | |- context [cur_execute ?cur ?q ?s] =>
      destruct (cur_execute cur q s) as [[[]|[?d| |?code]] ?s] eqn:?Hexe
  | |- context [cur_fetchone ?cur ?s] =>
      destruct (cur_fetchone cur s)
        as [[[[|?v ?vs]|]|[?d| |?code]] ?s] eqn:?Hfetch
  | |- context [cur_close ?cur ?s] =>
      destruct (cur_close cur s) as [[[]|[?d| |?code]] ?s] eqn:?Hcc
  | |- context [conn_close ?c ?s] =>
      destruct (conn_close c s) as [[[]|[?d| |?code]] ?s] eqn:?Hclose
  end.

Ltac advance :=
  first [ rewrite set_columns_upper | rewrite sf_config_table | case_call ];
  unfold_monad.

Ltac start_tool :=
  unfold upload_csv_to_snowflake; rewrite sf_config_run; unfold_monad.

(** Every path of the tool. *)
Ltac split_suffix :=
  first [ apply suffix_here | eapply suffix_later; split_suffix ].

Ltac all_paths := start_tool; repeat advance.

(** X1. Every way the tool returns is one of its five results. *)
Theorem result_well_formed (s0 : St) (result : dict pyval) :
  fst (fst (upload_csv_to_snowflake s0)) = Val result ->
  (exists nrows row_count, result = success_result nrows row_count)
  \/ result = error_result (lit "Upload to Snowflake failed")
  \/ exists d,
       result = error_result (lit "Error reading CSV: " +++ d)
       \/ result = error_result (lit "Connection failed: " +++ d)
       \/ result = error_result (lit "Upload error: " +++ d).
Proof.
  all_paths; cbn [fst]; intros H; try discriminate H; injection H as <-;
    first [ left; eexists _, _; reflexivity
          | right; left; reflexivity
          | right; right; eexists; left; reflexivity
          | right; right; eexists; right; left; reflexivity
          | right; right; eexists; right; right; reflexivity ].
Qed.

(** X3. The connection is closed on the success path and on no other: a
    [conn.close()] that returned is in the trace exactly when the tool
    returns a success result. *)
Theorem connection_closed_iff_success (s0 : St) :
  (exists c, In (EConnClose c (Val tt)) (snd (upload_csv_to_snowflake s0)))
  <-> (exists nrows row_count,
         fst (fst (upload_csv_to_snowflake s0))
         = Val (success_result nrows row_count)).
Proof.
  all_paths; cbn [fst snd app]; (split;
    [ intros [c0 Hin]; cbn [In] in Hin;
      repeat (destruct Hin as [Hin|Hin]; [try discriminate Hin|]);
      try contradiction; eexists _, _; reflexivity
    | intros [n0 [v0 H]]; try discriminate H;
      try (apply (f_equal (fun o => match o with
                                    | Val r => dict_get (lit "status") r
                                    | Raise _ => None
                                    end)) in H; cbv in H; discriminate H);
      eexists; cbn [In]; auto 20 ]).
Qed.

(** X4. When [fetchone()] returns no row, or an empty one, the tool returns an
    error result of the upload stage and closes neither the cursor nor the
    connection. *)
Theorem missing_count_reported (s0 : St) (cur : cursor)
    (row : option (list pyval)) :
  In (EFetchone cur (Val row)) (snd (upload_csv_to_snowflake s0)) ->
  row = None \/ row = Some [] ->
  (exists msg, fst (fst (upload_csv_to_snowflake s0))
               = Val (error_result (lit "Upload error: " +++ msg)))
  /\ existsb is_release (snd (upload_csv_to_snowflake s0)) = false.
Proof.
  all_paths; cbn [fst snd app]; intros Hin Hrow; cbn [In] in Hin;
    repeat (destruct Hin as [Hin|Hin]; [try discriminate Hin|]);
    try contradiction;
    injection Hin as <- <-;
    try (destruct Hrow as [Hrow|Hrow]; discriminate Hrow);
    (split; [eexists; reflexivity | reflexivity]).
Qed.

(** X5. [connect] is called with the seven warehouse settings as keyword
    arguments, under the names of the environment variables and with the
    values the environment has when the invocation starts; CSV_PATH is not
    among them. *)
Theorem connect_receives_settings (s0 : St) (kwargs : dict (option str))
    (r : outcome conn) :
  In (EConnect kwargs r) (snd (upload_csv_to_snowflake s0)) ->
  map fst kwargs
  = [ lit "SNOWFLAKE_USER"; lit "SNOWFLAKE_PASSWORD"; lit "SNOWFLAKE_ACCOUNT";
      lit "SNOWFLAKE_WAREHOUSE"; lit "SNOWFLAKE_DATABASE";
      lit "SNOWFLAKE_SCHEMA"; lit "SNOWFLAKE_TABLE" ]
  /\ (forall key, In key (map fst kwargs) ->
        dict_get key kwargs = Some (os_getenv key s0))
  /\ dict_get (lit "CSV_PATH") kwargs = None.
Proof.
  intros Hin.
  assert (Hk : kwargs = sf_config_of s0).
  { revert Hin. all_paths; cbn [snd app In]; intros Hin;
      repeat (destruct Hin as [Hin|Hin]; [try discriminate Hin|]);
      try contradiction; injection Hin as <- _; reflexivity. }
  subst kwargs. split; [reflexivity|]. split; [|reflexivity].
  intros key Hkey. cbn [sf_config_of REQUIRED_ENV tl map fst In] in Hkey.
  repeat (destruct Hkey as [<-|Hkey]; [reflexivity|]). contradiction.
Qed.

(** X6. The counting query is sent for the table the bulk load wrote to, on a
    cursor of the connection the bulk load used, and only after a bulk load
    that reported success. *)
Theorem verification_follows_load (s0 : St) (cur : cursor) (sql : str)
    (r : outcome unit) :
  In (EExecute cur sql r) (snd (upload_csv_to_snowflake s0)) ->
  sql = lit "SELECT COUNT(*) FROM "
        +++ fmt_opt (os_getenv (lit "SNOWFLAKE_TABLE") s0)
  /\ exists c df nchunks nrows out,
       In (EConnect (sf_config_of s0) (Val c)) (snd (upload_csv_to_snowflake s0))
       /\ In (EWritePandas c df (os_getenv (lit "SNOWFLAKE_TABLE") s0)
                (Val (true, nchunks, nrows, out)))
             (snd (upload_csv_to_snowflake s0))
       /\ In (ECursor c (Val cur)) (snd (upload_csv_to_snowflake s0)).
Proof.
  all_paths; cbn [snd app]; intros Hin; cbn [In] in Hin;
    repeat (destruct Hin as [Hin|Hin]; [try discriminate Hin|]);
    try contradiction;
    injection Hin as <- <- <-;
    (split; [reflexivity|]);
    eexists _, _, _, _, _; cbn [In]; (split; [|split]); auto 20.
Qed.

(** X7. An invocation reads the file once and calls [connect], the bulk load
    and the counting query at most once each: nothing is retried. *)
Theorem nothing_is_retried (s0 : St) :
  count is_read (snd (upload_csv_to_snowflake s0)) = 1
  /\ count is_connect (snd (upload_csv_to_snowflake s0)) <= 1
  /\ count is_bulk_load (snd (upload_csv_to_snowflake s0)) <= 1
  /\ count is_execute (snd (upload_csv_to_snowflake s0)) <= 1.
Proof.
  all_paths; cbn; repeat split; lia.
Qed.

(** X8. With a warehouse nobody else writes to, and calls that keep to the
    frame: whatever the tool returns or raises,
    the table has the rows it had plus those of a bulk load that reported
    success, and is unchanged when no bulk load was called. *)
Theorem table_changes_only_by_load (row_count : option str -> St -> Z)
    (s0 : St) :
  warehouse_contract row_count ->
  warehouse_frame row_count ->
  let table := os_getenv (lit "SNOWFLAKE_TABLE") s0 in
  let s' := snd (fst (upload_csv_to_snowflake s0)) in
  let tr := snd (upload_csv_to_snowflake s0) in
  (forall c df nchunks nrows out,
     In (EWritePandas c df table (Val (true, nchunks, nrows, out))) tr ->
     row_count table s' = (row_count table s0 + nrows)%Z)
  /\ (existsb is_bulk_load tr = false -> row_count table s' = row_count table s0).
Proof.
  intros Hw Hf table s' tr. subst table s' tr.
  all_paths; cbn [fst snd app];
    repeat match goal with
    | H : pd_read_csv _ _ = _ |- _ =>
        apply (read_csv_frame Hf) with (table := table_of s0) in H
    | H : sf_connect _ _ = _ |- _ =>
        apply (connect_frame Hf) with (table := table_of s0) in H
    | H : write_pandas _ _ _ _ = (Val (true, _, _, _), _) |- _ =>
        apply (load_appends Hw) in H; [|reflexivity]
    | H : conn_cursor _ _ = _ |- _ =>
        apply (cursor_frame Hf) with (table := table_of s0) in H
    | H : cur_execute _ _ _ = _ |- _ =>
        apply (execute_frame Hf) with (table := table_of s0) in H
    | H : cur_fetchone _ _ = _ |- _ =>
        apply (fetchone_frame Hf) with (table := table_of s0) in H
    | H : cur_close _ _ = _ |- _ =>
        apply (cur_close_frame Hf) with (table := table_of s0) in H
    | H : conn_close _ _ = _ |- _ =>
        apply (conn_close_frame Hf) with (table := table_of s0) in H
    end;
    unfold table_of in *;
    (split;
     [ intros c0 df0 nchunks0 nrows0 out0 Hin; cbn [In] in Hin;
       repeat (destruct Hin as [Hin|Hin]; [try discriminate Hin|]);
       try contradiction; injection Hin as <- <- <- <- <-; congruence
     | intros Hno; try discriminate Hno; congruence ]).
Qed.

(** With a warehouse nobody else writes to: a success result carries the
    number of rows the table holds when the tool returns, which is the
    number it held when the tool was called plus [rows_uploaded]. *)
Lemma success_run_counts (row_count : option str -> St -> Z)
    (s0 : St) (result : dict pyval) (s' : St) (tr : list event) :
  warehouse_contract row_count ->
  warehouse_frame row_count ->
  upload_csv_to_snowflake s0 = (Val result, s', tr) ->
  dict_get (lit "status") result = Some (VStr (lit "success")) ->
  let table := os_getenv (lit "SNOWFLAKE_TABLE") s0 in
  exists nrows,
    result = success_result nrows (VInt (row_count table s'))
    /\ row_count table s' = (row_count table s0 + nrows)%Z.
Proof.
  intros Hw Hf. revert result s' tr.
  all_paths; intros result s' tr H Hstatus; cbv zeta;
    try discriminate H; injection H as <- <- <-;
    try (cbv in Hstatus; discriminate Hstatus).
  pose proof (count_fetched Hw _ _ _ Hexe Hfetch) as Hrow.
  injection Hrow as -> ->.
  apply (read_csv_frame Hf) with (table := table_of s0) in Hread.
  apply (connect_frame Hf) with (table := table_of s0) in Hconn.
  apply (load_appends Hw) in Hload; [|reflexivity].
  apply (cursor_frame Hf) with (table := table_of s0) in Hcur.
  apply (execute_frame Hf) with (table := table_of s0) in Hexe.
  apply (fetchone_frame Hf) with (table := table_of s0) in Hfetch.
  apply (cur_close_frame Hf) with (table := table_of s0) in Hcc.
  apply (conn_close_frame Hf) with (table := table_of s0) in Hclose.
  unfold table_of in *.
  exists nrows. split.
  - unfold success_result. do 4 f_equal. congruence.
  - congruence.
Qed.

(** X9. The tool is not idempotent.  With a warehouse nobody else writes to
    and the table name unchanged: when an invocation and the next one both
    return a success result, the second total is the first total plus the
    rows the second invocation uploaded. *)
Theorem repeated_upload_appends_again (row_count : option str -> St -> Z)
    (s0 : St) (r1 : dict pyval) (s1 : St) (t1 : list event)
    (r2 : dict pyval) (s2 : St) (t2 : list event) :
  warehouse_contract row_count ->
  warehouse_frame row_count ->
  upload_csv_to_snowflake s0 = (Val r1, s1, t1) ->
  upload_csv_to_snowflake s1 = (Val r2, s2, t2) ->
  dict_get (lit "status") r1 = Some (VStr (lit "success")) ->
  dict_get (lit "status") r2 = Some (VStr (lit "success")) ->
  os_getenv (lit "SNOWFLAKE_TABLE") s1 = os_getenv (lit "SNOWFLAKE_TABLE") s0 ->
  exists n1 n2,
    let before := row_count (os_getenv (lit "SNOWFLAKE_TABLE") s0) s0 in
    r1 = success_result n1 (VInt (before + n1))
    /\ r2 = success_result n2 (VInt (before + n1 + n2)).
Proof.
  intros Hw Hf Hrun1 Hrun2 Hst1 Hst2 Htable.
  destruct (@success_run_counts row_count s0 r1 s1 t1 Hw Hf Hrun1 Hst1)
    as [n1 [-> Hc1]].
  destruct (@success_run_counts row_count s1 r2 s2 t2 Hw Hf Hrun2 Hst2)
    as [n2 [-> Hc2]].
  exists n1, n2. cbv zeta. rewrite Htable in Hc2. rewrite Htable.
  rewrite Hc2, Hc1. split; reflexivity.
Qed.

Lemma str_upper_fixed (name : str) :
  Forall (fun cp => (cp < 128)%N /\ ascii_lower cp = false) name ->
  str_upper name = name.
Proof.
  induction 1 as [|cp name [Hlt Hlow] _ IH]; [reflexivity|].
  unfold str_upper in *. cbn [flat_map]. rewrite IH.
  unfold toupper_full. rewrite Hlow.
  apply N.ltb_lt in Hlt. rewrite Hlt. reflexivity.
Qed.

(** X10. A header that is ASCII without a letter a-z goes through unchanged: the
    bulk load receives the data frame as it was parsed. *)
Theorem upper_case_header_unchanged (s0 : St) (df : DataFrame) (s1 : St) :
  pd_read_csv (os_getenv (lit "CSV_PATH") s0) s0 = (Val df, s1) ->
  (forall name, In name (df_columns df) ->
     Forall (fun cp => (cp < 128)%N /\ ascii_lower cp = false) name) ->
  forall c df' table r,
    In (EWritePandas c df' table r) (snd (upload_csv_to_snowflake s0)) ->
    df' = df.
Proof.
  intros Hread Hnames c df' table r Hin.
  destruct (bulk_load_argument _ Hread _ _ _ _ Hin) as [-> _].
  destruct df as [cols rows]. unfold normalized. cbn [df_columns df_rows] in *.
  f_equal. clear Hread Hin. induction cols as [|name cols IH]; [reflexivity|].
  cbn [map]. rewrite str_upper_fixed by (apply Hnames; left; reflexivity).
  f_equal. apply IH. intros name' Hin'. apply Hnames. right. exact Hin'.
Qed.

(** X11. Normalization can make labels collide, and the tool does not turn
    such a file away: when two columns of the file have names with the same
    [upper()], the labels after line 56 repeat, the result is never the
    error of the read stage, the tool goes on to call [connect], and once
    the connection is made the bulk load is called with the data frame
    whose labels repeat. *)
Theorem case_variants_collide (s0 : St) (df : DataFrame) (s1 : St)
    (i j : nat) (a b : str) :
  pd_read_csv (os_getenv (lit "CSV_PATH") s0) s0 = (Val df, s1) ->
  i <> j ->
  nth_error (df_columns df) i = Some a ->
  nth_error (df_columns df) j = Some b ->
  str_upper a = str_upper b ->
  ~ NoDup (df_columns (normalized df))
  /\ (forall d, fst (fst (upload_csv_to_snowflake s0))
                <> Val (error_result (lit "Error reading CSV: " +++ d)))
  /\ In (EConnect (sf_config_of s0) (fst (sf_connect (sf_config_of s0) s1)))
        (snd (upload_csv_to_snowflake s0))
  /\ (forall c s2,
        sf_connect (sf_config_of s0) s1 = (Val c, s2) ->
        In (EWritePandas c (normalized df) (table_of s0)
              (fst (write_pandas c (normalized df) (table_of s0) s2)))
           (snd (upload_csv_to_snowflake s0))).
Proof.
  intros Hread Hij Ha Hb Hab. split.
  - intros Hnodup. cbn [normalized df_columns] in Hnodup.
    apply Hij. apply (proj1 (NoDup_nth_error _) Hnodup).
    + rewrite length_map. apply nth_error_Some. rewrite Ha. discriminate.
    + rewrite !nth_error_map, Ha, Hb. cbn [option_map]. rewrite Hab.
      reflexivity.
  - start_tool. rewrite Hread. unfold_monad. rewrite set_columns_upper.
    unfold_monad. split; [|split].
    + repeat advance; cbn [fst]; intros descr H; try discriminate H;
        injection H as H; cbv in H; discriminate H.
    + repeat advance; cbn [fst snd app In]; auto 20.
    + intros c s2 Hconn. rewrite Hconn. unfold_monad.
      repeat advance; cbn [fst snd app In]; auto 20.
Qed.

End Tool.

(* ------------------------------------------------------------------ *)
(** ** Further properties of the script *)

Section Script.

Context {St : Type} {C : Collaborators St}.

Ltac unfold_script :=
  unfold script, startup, main_block;
  cbv beta iota delta
    [bind try_except extern print getenv ret raise sys_exit select_handler
     isinstance_Exception isinstance_KeyboardInterrupt negb path_exists].

(** Rewrites the validation loop, run in state [s], by its result. *)
Ltac run_loop s :=
  let Hloop := fresh "Hloop" in
  pose proof (validation_loop REQUIRED_ENV s) as Hloop; revert Hloop;
  cbv beta iota delta
    [bind try_except extern print getenv ret raise sys_exit select_handler
     isinstance_Exception isinstance_KeyboardInterrupt negb path_exists];
  intros ->.

Lemma set_is_not_missing (s : St) (var : str) :
  missing s var = false <-> exists cp rest, os_getenv var s = Some (cp :: rest).
Proof.
  unfold missing. destruct (os_getenv var s) as [[|cp rest]|]; cbn [py_not].
  - split; [discriminate | intros [cp [rest H]]; discriminate H].
  - split; [intros _; eexists _, _; reflexivity | reflexivity].
  - split; [discriminate | intros [cp [rest H]]; discriminate H].
Qed.

Lemma find_first {A} (f : A -> bool) (pre : list A) (x : A) (post : list A) :
  Forall (fun y => f y = false) pre -> f x = true ->
  find f (pre ++ x :: post) = Some x.
Proof.
  induction 1 as [|y pre Hy _ IH]; intros Hx; cbn [app find].
  - rewrite Hx. reflexivity.
  - rewrite Hy. apply IH. exact Hx.
Qed.

Lemma find_nothing {A} (f : A -> bool) (l : list A) :
  (forall x, In x l -> f x = false) -> find f l = None.
Proof.
  intros H. destruct (find f l) as [x|] eqn:Hfind; [|reflexivity].
  apply find_some in Hfind. destruct Hfind as [Hin Hx].
  rewrite (H x Hin) in Hx. discriminate Hx.
Qed.

(** X12. The validation loop stops at the first required variable, in the order
    of REQUIRED_ENV, that is unset or set to the empty string: the script
    names that variable only and exits with status 1. *)
Theorem first_missing_variable_named (s0 : St) (b : bool) (s1 : St)
    (pre : list str) (var : str) (post : list str) :
  load_dotenv s0 = (Val b, s1) ->
  REQUIRED_ENV = pre ++ var :: post ->
  Forall (fun v => exists cp rest, os_getenv v s1 = Some (cp :: rest)) pre ->
  os_getenv var s1 = None \/ os_getenv var s1 = Some [] ->
  script s0
  = (Raise (SystemExit 1), s1,
     [ ELoadDotenv (Val b);
       EPrint (lit "[INFO] Loading environment variables...");
       EPrint (lit "[ERROR] Missing environment variable: " +++ var) ]).
Proof.
  intros Hload Henv Hpre Hvar.
  assert (Hfind : find (missing s1) REQUIRED_ENV = Some var).
  { rewrite Henv. apply find_first.
    - eapply Forall_impl; [|exact Hpre]. intros v Hv.
      apply set_is_not_missing. exact Hv.
    - unfold missing. destruct Hvar as [-> | ->]; reflexivity. }
  unfold_script. rewrite Hload. run_loop s1. rewrite Hfind. reflexivity.
Qed.

(** X13. Once [load_dotenv] has returned, the script goes on to create the MCP
    server exactly when each of the eight variables is set to a non-empty
    string and the path in CSV_PATH exists. *)
Theorem server_created_iff_configured (s0 : St) (b : bool) (s1 : St) :
  load_dotenv s0 = (Val b, s1) ->
  existsb is_serving (snd (script s0)) = true
  <-> (forall var, In var REQUIRED_ENV ->
         exists cp rest, os_getenv var s1 = Some (cp :: rest))
      /\ exists p, os_getenv (lit "CSV_PATH") s1 = Some p
                   /\ os_path_exists p s1 = true.
Proof.
  intros Hload. unfold_script. rewrite Hload. run_loop s1.
  destruct (find (missing s1) REQUIRED_ENV) as [var|] eqn:Hfind.
  - split; [intros H; discriminate H|].
    intros [Hset _]. apply find_some in Hfind. destruct Hfind as [Hin Hmiss].
    rewrite (proj2 (set_is_not_missing s1 var) (Hset var Hin)) in Hmiss.
    discriminate Hmiss.
  - assert (Hset : forall var, In var REQUIRED_ENV ->
                     exists cp rest, os_getenv var s1 = Some (cp :: rest)).
    { intros var Hin. apply set_is_not_missing.
      exact (find_none _ _ Hfind _ Hin). }
    destruct (Hset (lit "CSV_PATH")) as [cp [rest Hp]]; [left; reflexivity|].
    rewrite Hp.
    cbv beta iota delta
      [bind try_except extern print getenv ret raise sys_exit select_handler
       isinstance_Exception isinstance_KeyboardInterrupt negb path_exists].
    destruct (os_path_exists (cp :: rest) s1) eqn:Hex.
    + split; [intros _|].
      * split; [exact Hset|]. exists (cp :: rest). split; [reflexivity | exact Hex].
      * intros _.
        destruct (FastMCP (lit "snowflake-tools") s1) as [[[]|[d| |code]] s2];
          try reflexivity.
        destruct (mcp_tool (lit "upload_csv_to_snowflake") s2) as [[[]|e] s3];
          try reflexivity.
        destruct (mcp_run s3) as [[[]|[d| |code]] s4]; reflexivity.
    + split; [intros H; discriminate H|].
      intros [_ [p [Hp' Hex']]]. injection Hp' as <-.
      rewrite Hex in Hex'. discriminate Hex'.
Qed.

(** Rewrites the gate of a configured environment away. *)
Ltac pass_gate s1 Hset Hp Hex :=
  run_loop s1;
  rewrite (find_nothing (missing s1) REQUIRED_ENV)
    by (intros ? ?; apply set_is_not_missing; apply Hset; assumption);
  rewrite Hp;
  cbv beta iota delta
    [bind try_except extern print getenv ret raise sys_exit select_handler
     isinstance_Exception isinstance_KeyboardInterrupt negb path_exists];
  rewrite Hex; cbn [fmt_opt].

(** X14. When the environment is complete and [FastMCP(...)] raises an
    [Exception], the script prints the failure with its description and
    exits with status 1; the tool is not registered and the server is not
    run. *)
Theorem server_creation_failure_exits (s0 : St) (b : bool) (s1 : St)
    (p d : str) (s2 : St) :
  load_dotenv s0 = (Val b, s1) ->
  (forall var, In var REQUIRED_ENV ->
     exists cp rest, os_getenv var s1 = Some (cp :: rest)) ->
  os_getenv (lit "CSV_PATH") s1 = Some p ->
  os_path_exists p s1 = true ->
  FastMCP (lit "snowflake-tools") s1 = (Raise (Exc d), s2) ->
  script s0
  = (Raise (SystemExit 1), s2,
     [ ELoadDotenv (Val b);
       EPrint (lit "[INFO] Loading environment variables...");
       EPrint (lit "[INFO] CSV file found: " +++ p);
       EFastMCP (lit "snowflake-tools") (Raise (Exc d));
       EPrint (lit "[ERROR] Failed to initialize MCP server: " +++ d) ]).
Proof.
  intros Hload Hset Hp Hex Hmcp.
  unfold_script. rewrite Hload. pass_gate s1 Hset Hp Hex.
  rewrite Hmcp. reflexivity.
Qed.

(** X15. Once the tool is registered, how the script ends depends on
    [mcp.run()]: it runs to its end when [mcp.run()] returns or raises
    [KeyboardInterrupt], it ends by [sys.exit(1)] when [mcp.run()] raises
    an [Exception], and a [SystemExit] raised by [mcp.run()] goes through
    both [except] clauses unchanged; the last line printed says which. *)
Theorem serving_outcome (s0 : St) (b : bool) (s1 : St) (p : str)
    (s2 s3 : St) :
  load_dotenv s0 = (Val b, s1) ->
  (forall var, In var REQUIRED_ENV ->
     exists cp rest, os_getenv var s1 = Some (cp :: rest)) ->
  os_getenv (lit "CSV_PATH") s1 = Some p ->
  os_path_exists p s1 = true ->
  FastMCP (lit "snowflake-tools") s1 = (Val tt, s2) ->
  mcp_tool (lit "upload_csv_to_snowflake") s2 = (Val tt, s3) ->
  fst (fst (script s0))
  = match fst (mcp_run s3) with
    | Val _ => Val tt
    | Raise KeyboardInterrupt => Val tt
    | Raise (Exc _) => Raise (SystemExit 1)
    | Raise (SystemExit code) => Raise (SystemExit code)
    end
  /\ last (snd (script s0)) (EPrint [])
     = match fst (mcp_run s3) with
       | Val _ => EPrint (lit "[INFO] MCP server running")
       | Raise KeyboardInterrupt => EPrint (lit "[INFO] Server stopped by user")
       | Raise (Exc d) => EPrint (lit "[ERROR] Server failed: " +++ d)
       | Raise (SystemExit code) => ERun (Raise (SystemExit code))
       end.
Proof.
  intros Hload Hset Hp Hex Hmcp Htool.
  unfold_script. rewrite Hload. pass_gate s1 Hset Hp Hex.
  rewrite Hmcp.
  cbv beta iota delta
    [bind try_except extern print getenv ret raise sys_exit select_handler
     isinstance_Exception isinstance_KeyboardInterrupt negb path_exists].
  rewrite Htool.
  destruct (mcp_run s3) as [[[]|[d| |code]] s4]; split; reflexivity.
Qed.

(** X16. The server is never run ahead of its set-up: whenever [mcp.run()] is
    called, the environment was loaded, the file was found, the server was
    created and the tool was registered, in this order and each without
    raising. *)
Theorem run_follows_registration (s0 : St) (r : outcome unit) :
  In (ERun r) (snd (script s0)) ->
  exists b p rest,
    snd (script s0)
    = [ ELoadDotenv (Val b);
        EPrint (lit "[INFO] Loading environment variables...");
        EPrint (lit "[INFO] CSV file found: " +++ p);
        EFastMCP (lit "snowflake-tools") (Val tt);
        EPrint (lit "[INFO] MCP server initialized");
        ETool (lit "upload_csv_to_snowflake") (Val tt);
        EPrint (lit "[INFO] Starting MCP server...");
        ERun r ] ++ rest.
Proof.
  unfold_script.
  destruct (load_dotenv s0) as [[b|e] s1] eqn:Hload;
    [|cbn [snd In]; intros [H|[]]; discriminate H].
  run_loop s1.
  destruct (find (missing s1) REQUIRED_ENV) as [var|] eqn:Hfind;
    [cbn [snd app In];
     intros H; repeat (destruct H as [H|H]; [discriminate H|]); contradiction|].
  destruct (os_getenv (lit "CSV_PATH") s1) as [p|] eqn:Hp;
    cbv beta iota delta
      [bind try_except extern print getenv ret raise sys_exit select_handler
       isinstance_Exception isinstance_KeyboardInterrupt negb path_exists];
    [|cbn [snd app In];
      intros H; repeat (destruct H as [H|H]; [discriminate H|]); contradiction].
  destruct (os_path_exists p s1) eqn:Hex;
    [|cbn [snd app In];
      intros H; repeat (destruct H as [H|H]; [discriminate H|]); contradiction].
  destruct (FastMCP (lit "snowflake-tools") s1) as [[[]|[d| |code]] s2];
    try (cbn [snd app In];
         intros H; repeat (destruct H as [H|H]; [discriminate H|]);
         contradiction).
  destruct (mcp_tool (lit "upload_csv_to_snowflake") s2) as [[[]|e] s3];
    try (cbn [snd app In];
         intros H; repeat (destruct H as [H|H]; [discriminate H|]);
         contradiction).
  destruct (mcp_run s3) as [[[]|[d| |code]] s4];
    cbn [snd app In fmt_opt];
    intros H; repeat (destruct H as [H|H]; [try discriminate H|]);
    try contradiction; injection H as <-;
    eexists _, _, _; reflexivity.
Qed.

End Script.

(* ------------------------------------------------------------------ *)
(** ** The tool over a diagnostic channel that can fail *)

Section Failing.

Context {St : Type} {C : Collaborators St}.

Variable stderr_write : str -> St -> outcome unit * St.

(** With the print that cannot fail the tool is the one studied so far. *)
Lemma via_print :
  upload_csv_to_snowflake_via print = upload_csv_to_snowflake (St:=St).
Proof. reflexivity. Qed.

Ltac unfold_io :=
  cbv beta iota delta
    [bind try_except extern print_to getenv ret raise sys_exit select_handler
     isinstance_Exception isinstance_KeyboardInterrupt negb subscript0
     exn_str].

Ltac case_io :=
  match goal with
  | |- context [stderr_write ?l ?s] =>
      destruct (stderr_write l s) as [[[]|[?d| |?code]] ?s] eqn:?Hpr
  | |- context [pd_read_csv ?p ?s] =>
      destruct (pd_read_csv p s) as [[?df|[?d| |?code]] ?s] eqn:?Hread
  | |- context [sf_connect ?k ?s] =>
      destruct (sf_connect k s) as [[?c|[?d| |?code]] ?s] eqn:?Hconn
  | |- context [write_pandas ?c ?df ?t ?s] =>
      destruct (write_pandas c df t s)
        as [[[[[[|] ?nchunks] ?nrows] ?out]|[?d| |?code]] ?s] eqn:?Hload
  | |- context [conn_cursor ?c ?s] =>
      destruct (conn_cursor c s) as [[?cur|[?d| |?code]] ?s] eqn:?Hcur
  | |- context [cur_execute ?cur ?q ?s] =>
      destruct (cur_execute cur q s) as [[[]|[?d| |?code]] ?s] eqn:?Hexe
  | |- context [cur_fetchone ?cur ?s] =>
      destruct (cur_fetchone cur s)
        as [[[[|?v ?vs]|]|[?d| |?code]] ?s] eqn:?Hfetch
  | |- context [cur_close ?cur ?s] =>
      destruct (cur_close cur s) as [[[]|[?d| |?code]] ?s] eqn:?Hcc
  | |- context [conn_close ?c ?s] =>
      destruct (conn_close c s) as [[[]|[?d| |?code]] ?s] eqn:?Hclose
  end.

Ltac advance_io :=
  first [ rewrite set_columns_upper | rewrite sf_config_table | case_io ];
  unfold_io.

Ltac all_paths_io :=
  unfold upload_csv_to_snowflake_via; rewrite sf_config_run; unfold_io;
  repeat advance_io.

Ltac cut_suffix :=
  first [ apply suffix_here | eapply suffix_later; cut_suffix ].

Ltac is_unprotected :=
  unfold unprotected_line;
  first [ left; reflexivity
        | right; eexists; left; reflexivity
        | right; eexists; right; left; reflexivity
        | right; eexists; right; right; reflexivity ].

(** C3, as the code has it.  An exception leaves the tool only if it is no
    instance of [Exception], or was raised by a diagnostic print that
    stands outside every [try] (line 46, or the print of an [except]
    handler); so when the prints do not fail no [Exception] leaves it.
    When a call of the connect, upload or verify stage raises an
    [Exception], the handler of the stage runs: its diagnostic is the last
    thing printed, and the tool returns the error result whose message is
    the text of the stage followed by the description of the exception,
    unless that print itself raises.  An exception of a library call that
    is no [Exception] ([KeyboardInterrupt], [SystemExit]) is not caught:
    the tool raises it. *)
Theorem exceptions_that_escape (s0 : St) :
  (forall e,
     fst (fst (upload_csv_to_snowflake_via (print_to stderr_write) s0))
     = Raise e ->
     isinstance_Exception e = false
     \/ exists pre line s s',
          snd (upload_csv_to_snowflake_via (print_to stderr_write) s0)
          = pre ++ [EPrint line]
          /\ unprotected_line line
          /\ stderr_write line s = (Raise e, s'))
  /\ ((forall line s, exists s', stderr_write line s = (Val tt, s')) ->
      forall d,
        fst (fst (upload_csv_to_snowflake_via (print_to stderr_write) s0))
        <> Raise (Exc d))
  /\ (forall ev d,
        In ev (snd (upload_csv_to_snowflake_via (print_to stderr_write) s0)) ->
        remote_raised ev = Some (Exc d) ->
        (exists pre,
           snd (upload_csv_to_snowflake_via (print_to stderr_write) s0)
           = pre ++ [EPrint (stage_diagnostic ev +++ d)])
        /\ (fst (fst (upload_csv_to_snowflake_via (print_to stderr_write) s0))
            = Val (error_result (stage_prefix ev +++ d))
            \/ exists e s s',
                 stderr_write (stage_diagnostic ev +++ d) s = (Raise e, s')
                 /\ fst (fst (upload_csv_to_snowflake_via
                                (print_to stderr_write) s0))
                    = Raise e))
  /\ (forall ev e,
        In ev (snd (upload_csv_to_snowflake_via (print_to stderr_write) s0)) ->
        raised ev = Some e ->
        isinstance_Exception e = false ->
        fst (fst (upload_csv_to_snowflake_via (print_to stderr_write) s0))
        = Raise e).
Proof.
  assert (Hescape : forall e,
     fst (fst (upload_csv_to_snowflake_via (print_to stderr_write) s0))
     = Raise e ->
     isinstance_Exception e = false
     \/ exists pre line s s',
          snd (upload_csv_to_snowflake_via (print_to stderr_write) s0)
          = pre ++ [EPrint line]
          /\ unprotected_line line
          /\ stderr_write line s = (Raise e, s')).
  { all_paths_io; cbn [fst snd app]; intros e H; try discriminate H;
      injection H as <-;
      first [ left; reflexivity
            | right; eexists _, _, _, _;
              (split; [cut_suffix|]); (split; [is_unprotected | eassumption]) ]. }
  split; [exact Hescape|]. split.
  - intros Hquiet d H. destruct (Hescape _ H) as [Hno | Hprint].
    + discriminate Hno.
    + destruct Hprint as [pre [line [s [s' [_ [_ Hw]]]]]].
      destruct (Hquiet line s) as [s'' Hs]. rewrite Hs in Hw. discriminate Hw.
  - split.
    + all_paths_io; cbn [fst snd app]; intros ev descr Hin Hr; cbn [In] in Hin;
        repeat (destruct Hin as [<-|Hin];
                [ try discriminate Hr; injection Hr as <-;
                  cbn [stage_diagnostic stage_prefix];
                  (split; [eexists; cut_suffix|]);
                  first [ left; reflexivity
                        | right; eexists _, _, _;
                          (split; [eassumption | reflexivity]) ] |]);
        contradiction.
    + all_paths_io; cbn [fst snd app]; intros ev e Hin Hr He; cbn [In] in Hin;
        repeat (destruct Hin as [<-|Hin];
                [ try discriminate Hr; injection Hr as <-;
                  first [discriminate He | reflexivity] |]);
        contradiction.
Qed.

(** X2. A [KeyboardInterrupt] or [SystemExit] raised by a library call ends
    the invocation there, also when printing can fail: the tool raises that
    exception and the call is its last event, so no handler runs, nothing
    is printed and nothing is closed after it. *)
Theorem interrupt_propagates (s0 : St) (ev : event) (e : exn) :
  In ev (snd (upload_csv_to_snowflake_via (print_to stderr_write) s0)) ->
  raised ev = Some e ->
  isinstance_Exception e = false ->
  fst (fst (upload_csv_to_snowflake_via (print_to stderr_write) s0)) = Raise e
  /\ exists pre,
       snd (upload_csv_to_snowflake_via (print_to stderr_write) s0)
       = pre ++ [ev].
Proof.
  revert ev e.
  all_paths_io; cbn [fst snd app]; intros ev e Hin Hr He; cbn [In] in Hin;
    repeat (destruct Hin as [<-|Hin];
            [ try discriminate Hr; injection Hr as <-;
              first [ discriminate He
                    | split; [reflexivity | eexists; cut_suffix] ] |]);
    contradiction.
Qed.

End Failing.

(* ------------------------------------------------------------------ *)
(** ** The further properties on the scripted worlds *)

(** The calls of the scripted warehouse keep to the frame. *)
Lemma fake_frame : warehouse_frame Fake.row_count.
Proof.
  constructor.
  - intros path s r s' table H. inversion H. reflexivity.
  - intros kwargs s r s' table H. inversion H. reflexivity.
  - intros c s r s' table H. inversion H. reflexivity.
  - intros cur sql s r s' table. cbn [cur_execute Fake.collaborators].
    unfold Fake.do_execute.
    destruct (Fake.querying s) as [[]|e]; intros H; inversion H; reflexivity.
  - intros cur s r s' table H. inversion H. reflexivity.
  - intros cur s r s' table H. inversion H. reflexivity.
  - intros c s r s' table H. inversion H. reflexivity.
Qed.

(** The rejected load returns the fixed error result, one of the five. *)
Lemma result_well_formed_witness :
  fst (fst (upload_csv_to_snowflake Scenario.load_rejected))
  = Val (error_result (lit "Upload to Snowflake failed"))
  /\ ((exists nrows row_count,
         error_result (lit "Upload to Snowflake failed")
         = success_result nrows row_count)
      \/ error_result (lit "Upload to Snowflake failed")
         = error_result (lit "Upload to Snowflake failed")
      \/ exists d,
           error_result (lit "Upload to Snowflake failed")
           = error_result (lit "Error reading CSV: " +++ d)
           \/ error_result (lit "Upload to Snowflake failed")
              = error_result (lit "Connection failed: " +++ d)
           \/ error_result (lit "Upload to Snowflake failed")
              = error_result (lit "Upload error: " +++ d)).
Proof.
  assert (H : fst (fst (upload_csv_to_snowflake Scenario.load_rejected))
              = Val (error_result (lit "Upload to Snowflake failed")))
    by reflexivity.
  split; [exact H|].
  exact (@result_well_formed _ _ Scenario.load_rejected _ H).
Defined.

(** The healthy run closes the connection. *)
Lemma connection_closed_iff_success_witness :
  exists c,
    In (EConnClose c (Val tt)) (snd (upload_csv_to_snowflake Fake.healthy)).
Proof.
  apply (proj2 (connection_closed_iff_success Fake.healthy)).
  exists 2%Z, (VInt 7). reflexivity.
Defined.

(** A query that yields no row: an error result, nothing closed. *)
Lemma missing_count_reported_witness :
  In (EFetchone 4%N (Val None)) (snd (upload_csv_to_snowflake Edge.no_row))
  /\ existsb is_release (snd (upload_csv_to_snowflake Edge.no_row)) = false.
Proof.
  assert (Hin : In (EFetchone 4%N (Val None))
                  (snd (upload_csv_to_snowflake Edge.no_row)))
    by in_list.
  split; [exact Hin|].
  exact (proj2 (@missing_count_reported _ _ Edge.no_row 4%N None Hin
                  (or_introl eq_refl))).
Defined.

(** The healthy run connects with the seven settings; the user is "u". *)
Lemma connect_receives_settings_witness :
  In (EConnect (sf_config_of Fake.healthy) (Val 3%N))
     (snd (upload_csv_to_snowflake Fake.healthy))
  /\ dict_get (lit "SNOWFLAKE_USER") (sf_config_of Fake.healthy)
     = Some (os_getenv (lit "SNOWFLAKE_USER") Fake.healthy).
Proof.
  assert (Hin : In (EConnect (sf_config_of Fake.healthy) (Val 3%N))
                  (snd (upload_csv_to_snowflake Fake.healthy)))
    by in_list.
  split; [exact Hin|].
  destruct (@connect_receives_settings _ _ Fake.healthy _ _ Hin)
    as [_ [Hget _]].
  apply Hget. in_list.
Defined.

(** The healthy run counts table T on cursor 4. *)
Lemma verification_follows_load_witness :
  In (EExecute 4%N (lit "SELECT COUNT(*) FROM T") (Val tt))
     (snd (upload_csv_to_snowflake Fake.healthy))
  /\ lit "SELECT COUNT(*) FROM T"
     = lit "SELECT COUNT(*) FROM "
       +++ fmt_opt (os_getenv (lit "SNOWFLAKE_TABLE") Fake.healthy).
Proof.
  assert (Hin : In (EExecute 4%N (lit "SELECT COUNT(*) FROM T") (Val tt))
                  (snd (upload_csv_to_snowflake Fake.healthy)))
    by in_list.
  split; [exact Hin|].
  exact (proj1 (@verification_follows_load _ _ Fake.healthy _ _ _ Hin)).
Defined.

(** The load worked and the query timed out: an error result, and 7 rows
    in the table that held 5. *)
Lemma table_changes_only_by_load_witness :
  In Scenario.load_event (snd (upload_csv_to_snowflake Scenario.query_fails))
  /\ Fake.row_count (os_getenv (lit "SNOWFLAKE_TABLE") Scenario.query_fails)
       (snd (fst (upload_csv_to_snowflake Scenario.query_fails)))
     = (Fake.row_count (os_getenv (lit "SNOWFLAKE_TABLE") Scenario.query_fails)
          Scenario.query_fails + 2)%Z.
Proof.
  assert (Hin : In Scenario.load_event
                  (snd (upload_csv_to_snowflake Scenario.query_fails)))
    by in_list.
  split; [exact Hin|].
  destruct (@table_changes_only_by_load _ _ Fake.row_count
              Scenario.query_fails fake_lawful fake_frame) as [Hload _].
  exact (Hload _ _ _ _ _ Hin).
Defined.

(** Two healthy invocations in a row: totals 7 and 9. *)
Lemma repeated_upload_appends_again_witness :
  exists n1 n2,
    fst (fst (upload_csv_to_snowflake Fake.healthy))
    = Val (success_result n1 (VInt (5 + n1)))
    /\ fst (fst (upload_csv_to_snowflake Edge.after_one))
       = Val (success_result n2 (VInt (5 + n1 + n2))).
Proof.
  assert (Hrun1 : upload_csv_to_snowflake Fake.healthy
                  = (Val (success_result 2 (VInt 7)), Edge.after_one,
                     snd (upload_csv_to_snowflake Fake.healthy)))
    by reflexivity.
  destruct (upload_csv_to_snowflake Edge.after_one) as [[o2 s2] t2] eqn:Hrun2.
  assert (Ho2 : o2 = Val (success_result 2 (VInt 9)))
    by (vm_compute in Hrun2; injection Hrun2 as <- _ _; reflexivity).
  subst o2.
  assert (Hst : dict_get (lit "status") (success_result 2 (VInt 7))
                = Some (VStr (lit "success")))
    by reflexivity.
  assert (Hst2 : dict_get (lit "status") (success_result 2 (VInt 9))
                 = Some (VStr (lit "success")))
    by reflexivity.
  assert (Htable : os_getenv (lit "SNOWFLAKE_TABLE") Edge.after_one
                   = os_getenv (lit "SNOWFLAKE_TABLE") Fake.healthy)
    by reflexivity.
  destruct (@repeated_upload_appends_again _ _ Fake.row_count Fake.healthy
              _ _ _ _ _ _ fake_lawful fake_frame Hrun1 Hrun2 Hst Hst2 Htable)
    as [n1 [n2 [H1 H2]]].
  exists n1, n2. rewrite Hrun1. cbn [fst]. split.
  - rewrite H1. reflexivity.
  - rewrite H2. reflexivity.
Defined.

(** An upper-case header: the frame is loaded as it was parsed. *)
Lemma upper_case_header_unchanged_witness :
  In (EWritePandas 3%N (normalized Scenario.sample_upper) Scenario.table
        (Val (true, 1%Z, 2%Z, [])))
     (snd (upload_csv_to_snowflake Edge.upper_file))
  /\ normalized Scenario.sample_upper = Scenario.sample_upper.
Proof.
  assert (Hread : pd_read_csv (os_getenv (lit "CSV_PATH") Edge.upper_file)
                    Edge.upper_file
                  = (Val Scenario.sample_upper, Edge.upper_file))
    by reflexivity.
  assert (Hin : In (EWritePandas 3%N (normalized Scenario.sample_upper)
                      Scenario.table (Val (true, 1%Z, 2%Z, [])))
                  (snd (upload_csv_to_snowflake Edge.upper_file)))
    by in_list.
  split; [exact Hin|].
  refine (@upper_case_header_unchanged _ _ Edge.upper_file _ _ Hread _
            _ _ _ _ Hin).
  intros name Hname. cbn [Scenario.sample_upper df_columns In] in Hname.
  repeat (destruct Hname as [<-|Hname];
          [repeat constructor; reflexivity|]).
  contradiction.
Defined.

(** SNOWFLAKE_USER is empty and SNOWFLAKE_SCHEMA unset: the user is named. *)
Lemma first_missing_variable_named_witness :
  os_getenv (lit "SNOWFLAKE_USER") Edge.blank_user = Some []
  /\ os_getenv (lit "SNOWFLAKE_SCHEMA") Edge.blank_user = None
  /\ script Edge.blank_user
     = (Raise (SystemExit 1), Edge.blank_user,
        [ ELoadDotenv (Val true);
          EPrint (lit "[INFO] Loading environment variables...");
          EPrint (lit "[ERROR] Missing environment variable: "
                  +++ lit "SNOWFLAKE_USER") ]).
Proof.
  split; [reflexivity|]. split; [reflexivity|].
  assert (Hload : load_dotenv Edge.blank_user = (Val true, Edge.blank_user))
    by reflexivity.
  assert (Hvar : os_getenv (lit "SNOWFLAKE_USER") Edge.blank_user = None
                 \/ os_getenv (lit "SNOWFLAKE_USER") Edge.blank_user = Some [])
    by (right; reflexivity).
  apply (@first_missing_variable_named _ _ Edge.blank_user true
           Edge.blank_user [lit "CSV_PATH"] (lit "SNOWFLAKE_USER")
           (skipn 2 REQUIRED_ENV) Hload).
  - reflexivity.
  - constructor; [|constructor]. eexists _, _. reflexivity.
  - exact Hvar.
Defined.

(** The healthy world gets its server. *)
Lemma server_created_iff_configured_witness :
  existsb is_serving (snd (script Fake.healthy)) = true.
Proof.
  assert (Hload : load_dotenv Fake.healthy = (Val true, Fake.healthy))
    by reflexivity.
  apply (proj2 (@server_created_iff_configured _ _ Fake.healthy _ _ Hload)).
  split.
  - intros var Hvar. cbn [REQUIRED_ENV In] in Hvar.
    repeat (destruct Hvar as [<-|Hvar]; [eexists _, _; reflexivity|]).
    contradiction.
  - exists (lit "data.csv"). split; reflexivity.
Defined.

(** The server cannot be created: exit status 1, nothing registered. *)
Lemma server_creation_failure_exits_witness :
  FastMCP (lit "snowflake-tools") Edge.no_server
  = (Raise (Exc (lit "port in use")), Edge.no_server)
  /\ exit_status (fst (fst (script Edge.no_server))) = 1%Z.
Proof.
  assert (Hload : load_dotenv Edge.no_server = (Val true, Edge.no_server))
    by reflexivity.
  assert (Hset : forall var, In var REQUIRED_ENV ->
                   exists cp rest,
                     os_getenv var Edge.no_server = Some (cp :: rest)).
  { intros var Hvar. cbn [REQUIRED_ENV In] in Hvar.
    repeat (destruct Hvar as [<-|Hvar]; [eexists _, _; reflexivity|]).
    contradiction. }
  assert (Hp : os_getenv (lit "CSV_PATH") Edge.no_server
               = Some (lit "data.csv"))
    by reflexivity.
  assert (Hex : os_path_exists (lit "data.csv") Edge.no_server = true)
    by reflexivity.
  assert (Hmcp : FastMCP (lit "snowflake-tools") Edge.no_server
                 = (Raise (Exc (lit "port in use")), Edge.no_server))
    by reflexivity.
  split; [exact Hmcp|].
  rewrite (@server_creation_failure_exits _ _ Edge.no_server true
             Edge.no_server (lit "data.csv") (lit "port in use")
             Edge.no_server Hload Hset Hp Hex Hmcp).
  reflexivity.
Defined.

(** The healthy server was set up before it ran. *)
Lemma run_follows_registration_witness :
  In (ERun (Val tt)) (snd (script Staged.healthy))
  /\ In (ETool (lit "upload_csv_to_snowflake") (Val tt))
        (snd (script Staged.healthy)).
Proof.
  assert (Hin : In (ERun (Val tt)) (snd (script Staged.healthy))) by in_list.
  split; [exact Hin|].
  destruct (run_follows_registration Staged.healthy (Val tt) Hin)
    as [b [p [rest Htr]]].
  rewrite Htr. cbn [app In]. auto 10.
Defined.

(** With a broken stderr the print of line 46 raises, outside every [try]:
    an [Exception] leaves the tool. *)
Example broken_stderr_escapes :
  fst (fst (upload_csv_to_snowflake_via (print_to Channel.broken) Fake.healthy))
  = Raise (Exc (lit "[Errno 32] Broken pipe")).
Proof. reflexivity. Qed.

(** The query times out and the handler cannot print its diagnostic: the
    exception of the print leaves the tool. *)
Example handler_print_escapes :
  fst (fst (upload_csv_to_snowflake_via (print_to Channel.failing_on_errors)
              Scenario.query_fails))
  = Raise (Exc (lit "[Errno 32] Broken pipe")).
Proof. reflexivity. Qed.

(** With a working stderr, a query that times out gives the error result
    of the upload stage. *)
Lemma exceptions_that_escape_witness :
  (forall line s, exists s', Channel.quiet line s = (Val tt, s'))
  /\ fst (fst (upload_csv_to_snowflake_via (print_to Channel.quiet)
                 Scenario.query_fails))
     <> Raise (Exc (lit "timeout"))
  /\ (fst (fst (upload_csv_to_snowflake_via (print_to Channel.quiet)
                  Scenario.query_fails))
      = Val (error_result (lit "Upload error: " +++ lit "timeout"))
      \/ exists e s s',
           Channel.quiet (lit "[ERROR] Upload error: " +++ lit "timeout") s
           = (Raise e, s')
           /\ fst (fst (upload_csv_to_snowflake_via (print_to Channel.quiet)
                          Scenario.query_fails))
              = Raise e).
Proof.
  assert (Hquiet : forall line s, exists s', Channel.quiet line s = (Val tt, s'))
    by (intros line s; exists s; reflexivity).
  destruct (@exceptions_that_escape _ _ Channel.quiet Scenario.query_fails)
    as [_ [Hno [Hcaught _]]].
  split; [exact Hquiet|]. split; [exact (Hno Hquiet (lit "timeout"))|].
  refine (proj2 (Hcaught (EExecute 4%N (lit "SELECT COUNT(*) FROM T")
                            (Raise (Exc (lit "timeout"))))
                   (lit "timeout") _ _)).
  - in_list.
  - reflexivity.
Defined.

(** Ctrl-C while connecting leaves the tool as it is, and ends the trace. *)
Lemma interrupt_propagates_witness :
  fst (fst (upload_csv_to_snowflake_via (print_to Channel.quiet)
              Scenario.interrupted))
  = Raise KeyboardInterrupt
  /\ exists pre,
       snd (upload_csv_to_snowflake_via (print_to Channel.quiet)
              Scenario.interrupted)
       = pre ++ [EConnect (sf_config_of Scenario.interrupted)
                          (Raise KeyboardInterrupt)].
Proof.
  apply (@interrupt_propagates _ _ Channel.quiet Scenario.interrupted
           (EConnect (sf_config_of Scenario.interrupted)
                     (Raise KeyboardInterrupt))
           KeyboardInterrupt).
  - in_list.
  - reflexivity.
  - reflexivity.
Defined.

(** The columns id and ID both arrive as ID, in the bulk load. *)
Lemma case_variants_collide_witness :
  str_upper (lit "id") = str_upper (lit "ID")
  /\ ~ NoDup (df_columns (normalized Edge.twins))
  /\ In (EWritePandas 3%N (normalized Edge.twins) (table_of Edge.twin_file)
           (fst (write_pandas 3%N (normalized Edge.twins)
                   (table_of Edge.twin_file) Edge.twin_file)))
        (snd (upload_csv_to_snowflake Edge.twin_file)).
Proof.
  assert (Hread : pd_read_csv (os_getenv (lit "CSV_PATH") Edge.twin_file)
                    Edge.twin_file = (Val Edge.twins, Edge.twin_file))
    by reflexivity.
  assert (Hab : str_upper (lit "id") = str_upper (lit "ID")) by reflexivity.
  assert (Hij : 0 <> 1) by discriminate.
  assert (Ha : nth_error (df_columns Edge.twins) 0 = Some (lit "id"))
    by reflexivity.
  assert (Hb : nth_error (df_columns Edge.twins) 1 = Some (lit "ID"))
    by reflexivity.
  assert (Hconn : sf_connect (sf_config_of Edge.twin_file) Edge.twin_file
                  = (Val 3%N, Edge.twin_file))
    by reflexivity.
  destruct (@case_variants_collide _ _ Edge.twin_file Edge.twins Edge.twin_file
              0 1 (lit "id") (lit "ID") Hread Hij Ha Hb Hab)
    as [Hdup [_ [_ Hload]]].
  split; [exact Hab|]. split; [exact Hdup|].
  exact (Hload 3%N Edge.twin_file Hconn).
Defined.

(** Ctrl-C while serving: the script runs to its end. *)
Lemma serving_outcome_witness :
  mcp_run Edge.stopped = (Raise KeyboardInterrupt, Edge.stopped)
  /\ fst (fst (script Edge.stopped)) = Val tt.
Proof.
  assert (Hload : load_dotenv Edge.stopped = (Val true, Edge.stopped))
    by reflexivity.
  assert (Hset : forall var, In var REQUIRED_ENV ->
                   exists cp rest,
                     os_getenv var Edge.stopped = Some (cp :: rest)).
  { intros var Hvar. cbn [REQUIRED_ENV In] in Hvar.
    repeat (destruct Hvar as [<-|Hvar]; [eexists _, _; reflexivity|]).
    contradiction. }
  assert (Hp : os_getenv (lit "CSV_PATH") Edge.stopped = Some (lit "data.csv"))
    by reflexivity.
  assert (Hex : os_path_exists (lit "data.csv") Edge.stopped = true)
    by reflexivity.
  assert (Hmcp : FastMCP (lit "snowflake-tools") Edge.stopped
                 = (Val tt, Edge.stopped))
    by reflexivity.
  assert (Htool : mcp_tool (lit "upload_csv_to_snowflake") Edge.stopped
                  = (Val tt, Edge.stopped))
    by reflexivity.
  split; [reflexivity|].
  rewrite (proj1 (@serving_outcome _ _ Edge.stopped true Edge.stopped
                    (lit "data.csv") Edge.stopped Edge.stopped
                    Hload Hset Hp Hex Hmcp Htool)).
  reflexivity.
Defined.
